(** * download.db: the persistence layer of the Fairdata Download Service

    A shallow embedding of [src/download/db.py].  The module talks to an
    SQLite file through one connection kept in Flask's per-context object
    [g]; every function first calls [get_db], then runs SQL statements on
    the handle it got back, and the mutating ones end with [commit].

    The embedding keeps that shape:
    - SQL values are [option string] ([None] is SQL NULL) and conditions
      are three-valued, as in SQL;
    - the four tables are lists of rows, in scan (insertion) order;
    - a [world] holds the database file ([disk]), the heap of connections
      ever opened, the slot [g.db] and the engine's clock;
    - the Python functions are computations in a state-and-exception monad
      over [world]; an exception keeps the state reached so far, as in
      Python.

    The model follows one unit of work: the file changes only by its own
    commits, and [disk] is what any other unit of work would read.  Logging
    calls ([current_app.logger]) have no effect on the data and are left
    out. *)

From Stdlib Require Import String Ascii ZArith List Bool.
From stdpp Require Import base option list gmap strings sets.

Local Open Scope string_scope.

(** ** SQL values and three-valued conditions *)

(** A TEXT (or TIMESTAMP, stored as text) cell: [None] is NULL. *)
Definition text := option string.

(** The value of an SQL condition: [None] is the unknown truth value. *)
Definition tri := option bool.

(** [a = b]: unknown as soon as one side is NULL. *)
Definition sql_eq (a b : text) : tri :=
  match a, b with
  | Some x, Some y => Some (String.eqb x y)
  | _, _ => None
  end.

(** [a IS NOT b]: never unknown, NULL is a value like any other. *)
Definition sql_is_not (a b : text) : tri :=
  match a, b with
  | Some x, Some y => Some (negb (String.eqb x y))
  | None, None => Some false
  | _, _ => Some true
  end.

(** White space as SQLite's number reader skips it: space, tab, line feed,
    vertical tab, form feed, carriage return. *)
Definition is_space (c : ascii) : bool :=
  let n := nat_of_ascii c in
  Nat.eqb n 32 || (Nat.leb 9 n && Nat.leb n 13).

Definition is_digit (c : ascii) : bool :=
  let n := nat_of_ascii c in
  Nat.leb 48 n && Nat.leb n 57.

Fixpoint drop_while (f : ascii -> bool) (s : string) : string :=
  match s with
  | String c rest => if f c then drop_while f rest else s
  | EmptyString => s
  end.

Fixpoint count_while (f : ascii -> bool) (s : string) : nat :=
  match s with
  | String c rest => if f c then S (count_while f rest) else 0
  | EmptyString => 0
  end.

Definition drop_sign (s : string) : string :=
  match s with
  | String c rest =>
      if Ascii.eqb c "-"%char || Ascii.eqb c "+"%char then rest else s
  | EmptyString => s
  end.

(** The text reads as a number for SQLite (a well-formed integer or real
    literal): optional white space, an optional sign, digits with an
    optional decimal point and at least one digit in all, an optional
    exponent with at least one digit, optional white space, and nothing
    else. *)
Definition numeric_literal (s : string) : bool :=
  let s1 := drop_while is_space s in
  match s1 with
  | EmptyString => false
  | String _ _ =>
      let s2 := drop_sign s1 in
      let n1 := count_while is_digit s2 in
      let s3 := drop_while is_digit s2 in
      let '(n2, s4) :=
        match s3 with
        | String c rest =>
            if Ascii.eqb c "."%char
            then (count_while is_digit rest, drop_while is_digit rest)
            else (0, s3)
        | EmptyString => (0, s3)
        end in
      let '(e_valid, s5) :=
        match s4 with
        | String c rest =>
            if Ascii.eqb c "e"%char || Ascii.eqb c "E"%char
            then let r := drop_sign rest in
                 (Nat.ltb 0 (count_while is_digit r), drop_while is_digit r)
            else (true, s4)
        | EmptyString => (true, s4)
        end in
      Nat.ltb 0 (n1 + n2) && e_valid && String.eqb (drop_while is_space s5) ""
  end.

(** [a > b] where [a] is a cell of a TIMESTAMP column and [b] a text
    parameter; unknown on NULL.  The column has NUMERIC affinity, so SQLite
    first turns a parameter that reads as a number into that number, and a
    number is less than any text; otherwise the two texts are compared
    byte-wise (BINARY collation).  The cell is taken to be stored as text,
    as the timestamps that the engine writes are. *)
Definition sql_gt (a b : text) : tri :=
  match a, b with
  | Some x, Some y =>
      if numeric_literal y then Some true else Some (String.ltb y x)
  | _, _ => None
  end.

(** [p AND q] in three-valued logic. *)
Definition sql_and (p q : tri) : tri :=
  match p, q with
  | Some false, _ | _, Some false => Some false
  | Some true, Some true => Some true
  | _, _ => None
  end.

(** A WHERE or ON clause keeps a row only when its condition is true. *)
Definition holds (p : tri) : bool :=
  match p with
  | Some true => true
  | _ => false
  end.

(** ** Tables *)

Module Download.
Record row := Row { token : text; filename : text }.
End Download.

Module Task.
Record row := Row {
  dataset_id : text;
  task_id : text;
  status : text;
  is_partial : bool;
  initiated : text;
  date_done : text
}.
End Task.

Module Scope.
Record row := Row { task_id : text; filepath : text }.
End Scope.

Module Package.
Record row := Row {
  filename : text;
  size_bytes : option Z;
  checksum : text;
  generated_by : text
}.
End Package.

(** The content of the database: each table in scan order. *)
Record store := Store {
  download : list Download.row;
  generate_task : list Task.row;
  generate_scope : list Scope.row;
  package : list Package.row
}.

Definition empty_store : store := Store [] [] [] [].

(** ** The schema *)

(** Modelled from the spec: [create_tables.sql] is not among the sources.
    The spec gives [download(token PK, filename)]: an insert is refused
    when a row with the same token is already there. *)
Definition insert_download (tok fname : string) (s : store) : option store :=
  if existsb (fun r => holds (sql_eq (Download.token r) (Some tok))) (download s)
  then None
  else Some (Store (download s ++ [Download.Row (Some tok) (Some fname)])
                   (generate_task s) (generate_scope s) (package s)).

(** Modelled from the spec: [create_tables.sql] is not among the sources.
    The spec gives [generate_task(task_id PK, dataset_id, status,
    is_partial, initiated, date_done)] with [initiated] set at insert (the
    engine's current time, [clock]) and [date_done] nullable; the statement
    of [create_task_rows] names the other four columns. *)
Definition insert_generate_task (clock : string)
    (dataset task : string) (st : string) (partial : bool) (s : store)
  : option store :=
  if existsb (fun r => holds (sql_eq (Task.task_id r) (Some task))) (generate_task s)
  then None
  else Some (Store (download s)
                   (generate_task s ++
                      [Task.Row (Some dataset) (Some task) (Some st) partial
                                (Some clock) None])
                   (generate_scope s) (package s)).

(** Modelled from the spec: [create_tables.sql] is not among the sources.
    The spec gives [generate_scope(task_id FK, filepath)] with composite
    uniqueness on [(task_id, filepath)]: an insert is refused when the pair
    is already there, or when no task row carries [task_id]. *)
Definition insert_generate_scope (task path : string) (s : store) : option store :=
  if existsb (fun r => holds (sql_and (sql_eq (Scope.task_id r) (Some task))
                                      (sql_eq (Scope.filepath r) (Some path))))
             (generate_scope s)
  then None
  else if existsb (fun r => holds (sql_eq (Task.task_id r) (Some task)))
                  (generate_task s)
  then Some (Store (download s) (generate_task s)
                   (generate_scope s ++ [Scope.Row (Some task) (Some path)])
                   (package s))
  else None.

(** ** Connections and the world *)

(** An sqlite3 connection: open or closed, and the working copy of the
    database while a write transaction is pending ([None]: no transaction,
    the connection reads the file). *)
Record connection := Connection { is_open : bool; txn : option store }.

(** [disk] is what every unit of work sees of the database; [conns] are the
    physical connections opened so far, a handle being an index in it;
    [g_db] is the attribute [db] of Flask's [g]; [now] is the engine's
    CURRENT_TIMESTAMP. *)
Record world := World {
  disk : store;
  conns : list connection;
  g_db : option nat;
  now : string
}.

(** What a connection reads: its own pending writes, else the file. *)
Definition view (w : world) (h : nat) : store :=
  match conns w !! h with
  | Some c => default (disk w) (txn c)
  | None => disk w
  end.

(** ** Exceptions and the monad *)

(** [ConstraintViolation] is [sqlite3.IntegrityError]; [ProgrammingError]
    is what sqlite3 raises for an operation on a closed connection. *)
Inductive error := ConstraintViolation | ProgrammingError.

Inductive outcome (A : Type) :=
| Return (a : A)
| Raise (e : error).
Arguments Return {A} a.
Arguments Raise {A} e.

Definition M (A : Type) : Type := world -> outcome A * world.

Definition ret {A} (a : A) : M A := fun w => (Return a, w).

Definition raise {A} (e : error) : M A := fun w => (Raise e, w).

Definition bind {A B} (m : M A) (k : A -> M B) : M B :=
  fun w =>
    match m w with
    | (Return a, w') => k a w'
    | (Raise e, w') => (Raise e, w')
    end.

Notation "'let!' x ':=' m 'in' k" := (bind m (fun x => k))
  (at level 10, x name, m at level 100, k at level 200).
Notation "m ';;' k" := (bind m (fun _ => k))
  (at level 100, k at level 200, right associativity).

(** ** The sqlite3 operations the module uses *)

(** [sqlite3.connect]: a new physical connection, with no transaction.  The
    configured [DATABASE_FILE] is taken to be reachable. *)
Definition sqlite3_connect : M nat :=
  fun w => (Return (length (conns w)),
            World (disk w) (conns w ++ [Connection true None]) (g_db w) (now w)).

(** [conn.close()]: pending writes are dropped; closing again is allowed. *)
Definition conn_close (h : nat) : M unit :=
  fun w => (Return tt,
            World (disk w) (<[h := Connection false None]> (conns w)) (g_db w) (now w)).

(** The handle [h] names an open connection. *)
Definition live (w : world) (h : nat) : bool :=
  match conns w !! h with
  | Some c => is_open c
  | None => false
  end.

(** [cursor.execute] of a SELECT: reads the connection's view. *)
Definition query {A} (h : nat) (q : store -> A) : M A :=
  fun w => if live w h then ret (q (view w h)) w else raise ProgrammingError w.

(** [cursor.execute] of an INSERT: sqlite3 opens a transaction first if
    none is pending, then runs the statement on the working copy; a refused
    statement changes no row and leaves the transaction pending. *)
Definition execute (h : nat) (stmt : string -> store -> option store) : M unit :=
  fun w =>
    if live w h then
      let s := view w h in
      match stmt (now w) s with
      | Some s' =>
          (Return tt,
           World (disk w) (<[h := Connection true (Some s')]> (conns w)) (g_db w) (now w))
      | None =>
          (Raise ConstraintViolation,
           World (disk w) (<[h := Connection true (Some s)]> (conns w)) (g_db w) (now w))
      end
    else raise ProgrammingError w.

(** [conn.commit()]: the working copy becomes the file. *)
Definition commit (h : nat) : M unit :=
  fun w =>
    if live w h then
      (Return tt,
       World (view w h) (<[h := Connection true None]> (conns w)) (g_db w) (now w))
    else raise ProgrammingError w.

(** [fetchone]: the first row of the result, or Python's [None]. *)
Definition fetchone {A} (rows : list A) : option A := head rows.

(** [fetchall]: every row of the result. *)
Definition fetchall {A} (rows : list A) : list A := rows.

(** ** The functions of download.db *)

(** [detect_types=sqlite3.PARSE_DECLTYPES] makes sqlite3 hand the cells of
    TIMESTAMP columns to its timestamp converter.  The tables of the model
    hold in those columns text as the engine writes it, which the converter
    reads, and a converted cell is identified with its text: a cell that
    the converter refuses, on which a SELECT of the column raises, is
    outside the model. *)
Definition get_db : M nat :=
  fun w =>
    match g_db w with
    | None =>
        (let! h := sqlite3_connect in
         fun w' => (Return h, World (disk w') (conns w') (Some h) (now w'))) w
    | Some h => (Return h, w)
    end.

Definition close_db : M unit :=
  fun w =>
    let db_conn := g_db w in
    let w' := World (disk w) (conns w) None (now w) in
    match db_conn with
    | Some h => conn_close h w'
    | None => (Return tt, w')
    end.

Definition get_download_record (token : string) : M (option Download.row) :=
  let! db_conn := get_db in
  query db_conn (fun s =>
    fetchone (List.filter
      (fun r => holds (sql_eq (Download.token r) (Some token)))
      (download s))).

(** The columns a SELECT of [get_task_rows] returns, in order. *)
Record task_listing := TaskListing {
  tl_initiated : text;
  tl_date_done : text;
  tl_task_id : text;
  tl_status : text;
  tl_is_partial : bool
}.

Definition task_listing_of (r : Task.row) : task_listing :=
  TaskListing (Task.initiated r) (Task.date_done r) (Task.task_id r)
              (Task.status r) (Task.is_partial r).

Definition get_task_rows_where (dataset_id initiated_after : string) (r : Task.row) : bool :=
  holds (sql_and (sql_and (sql_eq (Task.dataset_id r) (Some dataset_id))
                          (sql_is_not (Task.status r) (Some "FAILURE")))
                 (sql_gt (Task.initiated r) (Some initiated_after))).

(** Python's default [initiated_after=''] is the call with the empty string. *)
Definition get_task_rows (dataset_id : string) (initiated_after : string)
  : M (list task_listing) :=
  let! db_conn := get_db in
  query db_conn (fun s =>
    fetchall (map task_listing_of
      (List.filter (get_task_rows_where dataset_id initiated_after)
                   (generate_task s)))).

Definition create_download_record (token filename : string) : M unit :=
  let! db_conn := get_db in
  execute db_conn (fun _ => insert_download token filename) ;;
  commit db_conn.

(** The columns the final SELECT of [create_task_rows] returns. *)
Record task_created := TaskCreated {
  tc_initiated : text;
  tc_task_id : text;
  tc_status : text;
  tc_date_done : text
}.

Definition task_created_of (r : Task.row) : task_created :=
  TaskCreated (Task.initiated r) (Task.task_id r) (Task.status r) (Task.date_done r).

(** The [for filepath in generate_scope] loop. *)
Fixpoint insert_scope_rows (db_conn : nat) (task_id : string)
    (generate_scope : list string) : M unit :=
  match generate_scope with
  | [] => ret tt
  | filepath :: rest =>
      execute db_conn (fun _ => insert_generate_scope task_id filepath) ;;
      insert_scope_rows db_conn task_id rest
  end.

Definition create_task_rows (dataset_id task_id : string) (is_partial : bool)
    (generate_scope : list string) : M (option task_created) :=
  let! db_conn := get_db in
  execute db_conn
    (fun clock => insert_generate_task clock dataset_id task_id "PENDING" is_partial) ;;
  insert_scope_rows db_conn task_id generate_scope ;;
  commit db_conn ;;
  query db_conn (fun s =>
    fetchone (map task_created_of
      (List.filter (fun r => holds (sql_eq (Task.task_id r) (Some task_id)))
                   (generate_task s)))).

(** The columns a SELECT of [get_package_row] returns. *)
Record package_info := PackageInfo {
  pi_filename : text;
  pi_size_bytes : option Z;
  pi_checksum : text
}.

Definition package_info_of (p : Package.row) : package_info :=
  PackageInfo (Package.filename p) (Package.size_bytes p) (Package.checksum p).

Definition get_package_row (generated_by : string) : M (option package_info) :=
  let! db_conn := get_db in
  query db_conn (fun s =>
    fetchone (map package_info_of
      (List.filter (fun p => holds (sql_eq (Package.generated_by p) (Some generated_by)))
                   (package s)))).

Definition get_generate_scope_filepaths (task_id : string) : M (gset text) :=
  let! db_conn := get_db in
  let! scope_rows :=
    query db_conn (fun s =>
      fetchall (List.filter
        (fun r => holds (sql_eq (Scope.task_id r) (Some task_id)))
        (generate_scope s))) in
  ret (list_to_set (map Scope.filepath scope_rows)).

(** The ON clause of the join in [get_task_for_package]. *)
Definition task_for_package_on (dataset_id package : string)
    (t : Task.row) (p : Package.row) : bool :=
  holds (sql_and (sql_and (sql_eq (Task.dataset_id t) (Some dataset_id))
                          (sql_eq (Package.filename p) (Some package)))
                 (sql_eq (Task.task_id t) (Package.generated_by p))).

(** [generate_task t JOIN package p ON ...]: the pairs that satisfy the
    condition, here with the task rows in the outer loop.  The engine may
    scan [package] first, which gives the same pairs in another order. *)
Definition join_task_package (on : Task.row -> Package.row -> bool) (s : store)
  : list (Task.row * Package.row) :=
  flat_map (fun t => map (pair t) (List.filter (on t) (package s)))
           (generate_task s).

(** The result row holds the single column [t.initiated]. *)
Definition get_task_for_package (dataset_id package : string) : M (option text) :=
  let! db_conn := get_db in
  query db_conn (fun s =>
    fetchone (map (fun tp => Task.initiated (fst tp))
      (join_task_package (task_for_package_on dataset_id package) s))).

(** ** What a unit of work sees, and the invariant of [g] *)

(** The database as the current unit of work reads it. *)
Definition current (w : world) : store :=
  match g_db w with
  | Some h => view w h
  | None => disk w
  end.

(** [g.db], when set, is an open connection: [get_db] only stores a handle
    it has just opened and [close_db] clears the slot before it closes. *)
Definition wf_world (w : world) : Prop :=
  match g_db w with
  | Some h => live w h = true
  | None => True
  end.

(** [h] is the handle in [g], it is open and it reads [s]. *)
Definition ready (w : world) (h : nat) (s : store) : Prop :=
  g_db w = Some h /\ live w h = true /\ view w h = s.

(** The table contents that [create_task_rows] is expected to leave. *)
Definition with_task (clock dataset_id task_id : string) (is_partial : bool)
    (generate_scope_arg : list string) (s : store) : store :=
  Store (download s)
        (generate_task s ++
           [Task.Row (Some dataset_id) (Some task_id) (Some "PENDING") is_partial
                     (Some clock) None])
        (generate_scope s ++
           map (fun f => Scope.Row (Some task_id) (Some f)) generate_scope_arg)
        (package s).

(** The scope loop on the table contents alone. *)
Fixpoint insert_all_scope (task : string) (paths : list string) (s : store)
  : option store :=
  match paths with
  | [] => Some s
  | f :: rest =>
      match insert_generate_scope task f s with
      | Some s' => insert_all_scope task rest s'
      | None => None
      end
  end.

(** Every scope row points to a task row (the foreign key of the schema). *)
Definition ref_integrity (s : store) : bool :=
  forallb (fun r => existsb (fun t => holds (sql_eq (Task.task_id t) (Scope.task_id r)))
                            (generate_task s))
          (generate_scope s).

(** No row of [generate_task] carries [task]. *)
Definition task_fresh (task : string) (s : store) : bool :=
  negb (existsb (fun r => holds (sql_eq (Task.task_id r) (Some task))) (generate_task s)).

(** No row of [generate_scope] carries [task]. *)
Definition scope_free (task : string) (s : store) : bool :=
  negb (existsb (fun r => holds (sql_eq (Scope.task_id r) (Some task))) (generate_scope s)).

(** [n] calls of [get_db] in a row, with the handles they return. *)
Fixpoint get_db_times (n : nat) : M (list nat) :=
  match n with
  | O => ret []
  | S k =>
      let! h := get_db in
      let! hs := get_db_times k in
      ret (h :: hs)
  end.

(** The pairs a package is linked to a task of the dataset by: the task
    row is of [dataset_id], the package row is named [package], and the
    package's [generated_by] is the task's [task_id]. *)
Definition package_link (dataset_id package : string)
    (t : Task.row) (p : Package.row) : Prop :=
  Task.dataset_id t = Some dataset_id /\
  Package.filename p = Some package /\
  exists id, Task.task_id t = Some id /\ Package.generated_by p = Some id.

(** What the two kinds of INSERT of [create_task_rows] do to the tables
    when none is refused. *)
Definition create_task_rows_store (clock dataset_id task_id : string)
    (is_partial : bool) (generate_scope_arg : list string) (s : store)
  : option store :=
  match insert_generate_task clock dataset_id task_id "PENDING" is_partial s with
  | Some s1 => insert_all_scope task_id generate_scope_arg s1
  | None => None
  end.

(** A scope row for [(task, path)] is in the table. *)
Definition scope_has (task path : string) (rows : list Scope.row) : bool :=
  existsb (fun r => holds (sql_and (sql_eq (Scope.task_id r) (Some task))
                                   (sql_eq (Scope.filepath r) (Some path)))) rows.

(** The invariant of a unit of work: [g] is well formed, and the foreign key
    holds both in what the unit of work reads and in the file. *)
Definition consistent (w : world) : Prop :=
  wf_world w /\ ref_integrity (current w) = true /\ ref_integrity (disk w) = true.

(** ** Initialisation and the application hooks *)

(** [conn.executescript]: sqlite3 commits a pending transaction first, then
    runs the script, each statement being written as it is run; no
    transaction is left pending. *)
Definition executescript (h : nat) (script : store -> store) : M unit :=
  fun w =>
    if live w h then
      (Return tt,
       World (script (view w h)) (<[h := Connection true None]> (conns w))
             (g_db w) (now w))
    else raise ProgrammingError w.

(** [create_tables.sql] is not among the sources: what the script makes of
    the tables is the parameter [create_tables_sql]. *)
Definition init_db (create_tables_sql : store -> store) : M unit :=
  let! db_conn := get_db in
  executescript db_conn create_tables_sql.

(** [confirm] is the operator's answer to [click.confirm]; the result is
    what [click.echo] prints. *)
Definition init_db_command (create_tables_sql : store -> store) (confirm : bool)
  : M (list string) :=
  if confirm then
    init_db create_tables_sql ;;
    ret ["Initialized the database."]
  else ret [].

(** The part of a Flask application that [init_app] touches: the functions
    run when an application context ends, and the names of the command
    groups. *)
Record app := App {
  teardown_appcontext_funcs : list (M unit);
  cli_commands : list string
}.

Definition init_app (a : app) : app :=
  App (teardown_appcontext_funcs a ++ [close_db]) (cli_commands a ++ ["db"]).

(** Flask runs the teardown functions in reverse order of registration. *)
Fixpoint run_all (fs : list (M unit)) : M unit :=
  match fs with
  | [] => ret tt
  | f :: rest => f ;; run_all rest
  end.

Definition do_teardown_appcontext (a : app) : M unit :=
  run_all (rev (teardown_appcontext_funcs a)).

(** A call of one of the functions of the module, as a caller makes it. *)
Inductive call :=
| CallGetDb
| CallCloseDb
| CallInitDb (create_tables_sql : store -> store)
| CallInitDbCommand (create_tables_sql : store -> store) (confirm : bool)
| CallGetDownloadRecord (token : string)
| CallGetTaskRows (dataset_id initiated_after : string)
| CallCreateDownloadRecord (token filename : string)
| CallCreateTaskRows (dataset_id task_id : string) (is_partial : bool)
                     (generate_scope_arg : list string)
| CallGetPackageRow (generated_by : string)
| CallGetGenerateScopeFilepaths (task_id : string)
| CallGetTaskForPackage (dataset_id package_name : string).

(** The world a call leaves, whether it returns or raises. *)
Definition after_call (c : call) (w : world) : world :=
  match c with
  | CallGetDb => snd (get_db w)
  | CallCloseDb => snd (close_db w)
  | CallInitDb script => snd (init_db script w)
  | CallInitDbCommand script confirm => snd (init_db_command script confirm w)
  | CallGetDownloadRecord t => snd (get_download_record t w)
  | CallGetTaskRows d T => snd (get_task_rows d T w)
  | CallCreateDownloadRecord t f => snd (create_download_record t f w)
  | CallCreateTaskRows d t p sc => snd (create_task_rows d t p sc w)
  | CallGetPackageRow gb => snd (get_package_row gb w)
  | CallGetGenerateScopeFilepaths t => snd (get_generate_scope_filepaths t w)
  | CallGetTaskForPackage d pkg => snd (get_task_for_package d pkg w)
  end.

(** A caller that goes on after each call, catching what it raises; a
    caller that stops at the first exception runs a prefix of the list. *)
Fixpoint after_calls (cs : list call) (w : world) : world :=
  match cs with
  | [] => w
  | c :: rest => after_calls rest (after_call c w)
  end.

(** One application context: the calls, then the teardown functions. *)
Definition app_context (a : app) (cs : list call) (w : world) : world :=
  snd (do_teardown_appcontext a (after_calls cs w)).

(** Every connection of the world is closed. *)
Definition all_closed (w : world) : bool :=
  forallb (fun c => negb (is_open c)) (conns w).

(** The number of [close_db] calls in a list of calls. *)
Definition close_calls (cs : list call) : nat :=
  length (List.filter (fun c => match c with CallCloseDb => true | _ => false end) cs).

(** The only connection that can be open is the one that [g] holds, and
    the connections opened so far, counting one more while [g] is empty,
    are at most [n]. *)
Definition tracked (n : nat) (w : world) : Prop :=
  wf_world w /\
  (forall h c, conns w !! h = Some c -> is_open c = true -> g_db w = Some h) /\
  length (conns w) + match g_db w with Some _ => 0 | None => 1 end <= n.

(** A computation keeps [Q], whether it returns or raises. *)
Definition keeps (Q : world -> Prop) {A} (m : M A) : Prop :=
  forall w out w', Q w -> m w = (out, w') -> Q w'.

(** The rows of the other tables and of the other tasks, as the lookups
    see them. *)
Definition others_as_in (task : string) (s0 s : store) : Prop :=
  download s = download s0 /\ package s = package s0 /\
  forall t', t' <> task ->
    List.filter (fun r => holds (sql_eq (Scope.task_id r) (Some t'))) (generate_scope s) =
    List.filter (fun r => holds (sql_eq (Scope.task_id r) (Some t'))) (generate_scope s0).

(** ** Sample worlds *)

(** A unit of work that starts on an initialised, empty database. *)
Definition w_empty : world := World empty_store [] None "2020-05-04 10:00:00".

(** A database with two tasks of dataset D1, the second with no status,
    one failed task, and the package of the first task. *)
Definition s_sample : store :=
  Store []
        [Task.Row (Some "D1") (Some "T1") (Some "SUCCESS") false
                  (Some "2020-05-04 10:00:00") (Some "2020-05-04 10:05:00");
         Task.Row (Some "D1") (Some "T2") None true
                  (Some "2020-05-05 08:00:00") None;
         Task.Row (Some "D1") (Some "T3") (Some "FAILURE") false
                  (Some "2020-05-06 09:00:00") (Some "2020-05-06 09:01:00")]
        [Scope.Row (Some "T2") (Some "a.txt")]
        [Package.Row (Some "T1.zip") (Some 100%Z) (Some "abc") (Some "T1")].

Definition w_sample : world := World s_sample [] None "2020-05-07 12:00:00".

(** A database with a task whose [initiated] is NULL. *)
Definition w_null_initiated : world :=
  World (Store []
               [Task.Row (Some "D1") (Some "T1") (Some "PENDING") false None None;
                Task.Row (Some "D1") (Some "T2") (Some "PENDING") false
                         (Some "2020-05-05 08:00:00") None]
               [] [])
        [] None "2020-05-07 12:00:00".

(** * Properties *)

(** ** Conditions *)

Lemma holds_sql_eq (a : text) (x : string) :
  holds (sql_eq a (Some x)) = true <-> a = Some x.
Proof.
  destruct a as [y|]; simpl; [|split; discriminate].
  destruct (String.eqb_spec y x) as [->|Hne]; split; try done.
  intros [= ->]. done.
Qed.

Lemma holds_sql_eq_both (a b : text) :
  holds (sql_eq a b) = true <-> exists x, a = Some x /\ b = Some x.
Proof.
  destruct b as [x|].
  - rewrite holds_sql_eq. split; [eauto|]. by intros (y & -> & [= ->]).
  - destruct a; simpl; split; try done; by intros (y & _ & [=]).
Qed.

Lemma holds_sql_and (p q : tri) :
  holds (sql_and p q) = true <-> holds p = true /\ holds q = true.
Proof. destruct p as [[]|], q as [[]|]; simpl; intuition congruence. Qed.

Lemma holds_sql_is_not (a : text) (x : string) :
  holds (sql_is_not a (Some x)) = true <-> a <> Some x.
Proof.
  destruct a as [y|]; simpl; [|split; done].
  destruct (String.eqb_spec y x) as [->|Hne]; simpl; split; try done.
  intros _ [= ->]. done.
Qed.

Lemma holds_sql_gt (a : text) (x : string) :
  holds (sql_gt a (Some x)) = true <->
  exists y, a = Some y /\ (numeric_literal x = true \/ String.ltb x y = true).
Proof.
  destruct a as [y|]; simpl.
  - destruct (numeric_literal x); simpl; [split; eauto|].
    destruct (String.ltb x y) eqn:E; split; try done; eauto.
    intros (z & [= <-] & [Hz|Hz]); congruence.
  - split; [done|]. by intros (z & [=] & _).
Qed.

(** Strictly after is never at or before. *)
Lemma string_ltb_not_leb (x y : string) :
  String.ltb x y = true -> String.leb y x = false.
Proof.
  unfold String.ltb, String.leb. rewrite (String.compare_antisym x y).
  destruct (String.compare y x); simpl; done.
Qed.

(** ** The primitive operations on a ready connection *)

Lemma ready_wf w h s : ready w h s -> wf_world w /\ current w = s.
Proof. intros (Hg & Hl & Hv). unfold wf_world, current. rewrite Hg. by split. Qed.

Lemma live_lt w h : live w h = true -> h < length (conns w).
Proof.
  unfold live. destruct (conns w !! h) eqn:E; [|done].
  intros _. eapply lookup_lt_Some; eauto.
Qed.

Lemma ready_replace w h s c :
  ready w h s -> is_open c = true ->
  forall d, ready (World d (<[h := c]> (conns w)) (g_db w) (now w)) h (default d (txn c)).
Proof.
  intros (Hg & Hl & Hv) Hc d. pose proof (live_lt _ _ Hl) as Hlt.
  unfold ready, live, view; simpl.
  rewrite list_lookup_insert_eq by done. done.
Qed.

Lemma query_ready {A} w h s (q : store -> A) :
  ready w h s -> query h q w = (Return (q s), w).
Proof. intros (Hg & Hl & Hv). unfold query. rewrite Hl, Hv. done. Qed.

Lemma execute_ready w h s stmt :
  ready w h s ->
  exists w',
    disk w' = disk w /\ now w' = now w /\
    match stmt (now w) s with
    | Some s' => execute h stmt w = (Return tt, w') /\ ready w' h s'
    | None => execute h stmt w = (Raise ConstraintViolation, w') /\ ready w' h s
    end.
Proof.
  intros Hr. pose proof Hr as (Hg & Hl & Hv). unfold execute. rewrite Hl, Hv.
  destruct (stmt (now w) s) as [s'|].
  - exists (World (disk w) (<[h := Connection true (Some s')]> (conns w)) (g_db w) (now w)).
    do 3 (split; [done|]).
    apply (ready_replace w h s (Connection true (Some s')) Hr eq_refl).
  - exists (World (disk w) (<[h := Connection true (Some s)]> (conns w)) (g_db w) (now w)).
    do 3 (split; [done|]).
    apply (ready_replace w h s (Connection true (Some s)) Hr eq_refl).
Qed.

Lemma commit_ready w h s :
  ready w h s ->
  exists w', commit h w = (Return tt, w') /\ ready w' h s /\ disk w' = s /\ now w' = now w.
Proof.
  intros Hr. pose proof Hr as (Hg & Hl & Hv). unfold commit. rewrite Hl, Hv.
  eexists; split; [reflexivity|]. split; [|done].
  apply (ready_replace w h s (Connection true None) Hr eq_refl s).
Qed.

(** [get_db] always returns a handle and never touches the file; the handle
    is ready unless [g] held a closed one. *)
Lemma get_db_cases w :
  exists h w',
    get_db w = (Return h, w') /\ disk w' = disk w /\ now w' = now w /\
    (ready w' h (current w) \/ (w' = w /\ live w h = false)).
Proof.
  unfold get_db, current. destruct (g_db w) as [h|] eqn:Hg.
  - exists h, w. repeat split; try done.
    destruct (live w h) eqn:Hl; [left|right]; done.
  - eexists _, _. split; [reflexivity|]. simpl. repeat split; try done.
    left. unfold ready, live, view; simpl.
    rewrite lookup_app_r, Nat.sub_diag by done. done.
Qed.

Lemma get_db_ready w :
  wf_world w ->
  exists h w',
    get_db w = (Return h, w') /\ disk w' = disk w /\ now w' = now w /\
    ready w' h (current w).
Proof.
  intros Hwf. destruct (get_db_cases w) as (h & w' & E & Hd & Hn & [Hr|[-> Hl]]).
  - eauto 10.
  - exfalso. unfold get_db in E. unfold wf_world in Hwf.
    destruct (g_db w) as [h'|] eqn:Hg.
    + injection E as <-. congruence.
    + unfold bind, sqlite3_connect in E. simpl in E. injection E as _ E.
      rewrite <- E in Hg. simpl in Hg. done.
Qed.

(** ** Read-only functions: [get_db], then one SELECT *)

Lemma select_run {A} (q : store -> A) w :
  wf_world w ->
  exists w',
    (let! db_conn := get_db in query db_conn q) w = (Return (q (current w)), w') /\
    disk w' = disk w /\ now w' = now w /\ wf_world w' /\ current w' = current w.
Proof.
  intros Hwf. destruct (get_db_ready w Hwf) as (h & w' & E & Hd & Hn & Hr).
  exists w'. unfold bind. rewrite E, (query_ready _ _ _ _ Hr).
  destruct (ready_wf _ _ _ Hr). done.
Qed.

Lemma fetchone_none {A} (rows : list A) :
  fetchone rows = None <-> forall r, ~ In r rows.
Proof.
  destruct rows as [|a rows]; simpl; split.
  - intros _ r [].
  - done.
  - done.
  - intros H. destruct (H a). by left.
Qed.

Lemma filter_nil_iff {A} (f : A -> bool) (l : list A) :
  List.filter f l = [] <-> forall x, In x l -> f x = false.
Proof.
  induction l as [|a l IH]; simpl; [done|].
  destruct (f a) eqn:E; split.
  - done.
  - intros H. specialize (H a (or_introl eq_refl)). congruence.
  - intros H x [<-|Hx]; [done|]. by apply IH.
  - intros H. apply IH. intros x Hx. apply H. by right.
Qed.

Lemma task_for_package_on_link d pkg t p :
  task_for_package_on d pkg t p = true <-> package_link d pkg t p.
Proof.
  unfold task_for_package_on, package_link.
  rewrite !holds_sql_and, !holds_sql_eq, holds_sql_eq_both. tauto.
Qed.

Lemma in_join_task_package on s t p :
  In (t, p) (join_task_package on s) <->
  In t (generate_task s) /\ In p (package s) /\ on t p = true.
Proof.
  unfold join_task_package. rewrite in_flat_map. split.
  - intros (t' & Ht & Hin). apply in_map_iff in Hin as (p' & [= <- <-] & Hp).
    apply filter_In in Hp. tauto.
  - intros (Ht & Hp & Hon). exists t. split; [done|].
    apply in_map_iff. exists p. split; [done|]. apply filter_In. done.
Qed.

Lemma get_task_rows_where_iff d T r :
  get_task_rows_where d T r = true <->
  Task.dataset_id r = Some d /\ Task.status r <> Some "FAILURE" /\
  exists i, Task.initiated r = Some i /\
            (numeric_literal T = true \/ String.ltb T i = true).
Proof.
  unfold get_task_rows_where.
  rewrite !holds_sql_and, holds_sql_eq, holds_sql_is_not, holds_sql_gt. tauto.
Qed.

Lemma get_task_rows_run w d T :
  wf_world w ->
  exists w',
    get_task_rows d T w =
      (Return (map task_listing_of
                 (List.filter (get_task_rows_where d T) (generate_task (current w)))), w') /\
    disk w' = disk w /\ wf_world w' /\ current w' = current w.
Proof.
  intros Hwf.
  destruct (select_run (fun s => fetchall (map task_listing_of
              (List.filter (get_task_rows_where d T) (generate_task s)))) w Hwf)
    as (w' & E & Hd & _ & Hwf' & Hc).
  exists w'. done.
Qed.

(** X18. Every row that [get_task_rows] returns comes from a task row of
    the dataset and its status is not FAILURE, whatever the bound; when the
    bound does not read as a number, its [initiated] is strictly after the
    bound, so it is not at or before it. *)
Theorem get_task_rows_sound_text_bound (w w' : world)
    (dataset_id initiated_after : string) (rows : list task_listing) :
  wf_world w ->
  get_task_rows dataset_id initiated_after w = (Return rows, w') ->
  forall l, In l rows ->
    (exists r, In r (generate_task (current w)) /\ l = task_listing_of r /\
               Task.dataset_id r = Some dataset_id) /\
    tl_status l <> Some "FAILURE" /\
    exists i, tl_initiated l = Some i /\
              (numeric_literal initiated_after = false ->
               String.ltb initiated_after i = true /\
               String.leb i initiated_after = false).
Proof.
  intros Hwf Hrun.
  destruct (get_task_rows_run w dataset_id initiated_after Hwf) as (w1 & E & _).
  rewrite E in Hrun. injection Hrun as <- _.
  intros l Hl. apply in_map_iff in Hl as (r & <- & Hr).
  apply filter_In in Hr as (Hin & Hw).
  apply get_task_rows_where_iff in Hw as (Hd & Hs & i & Hi & Hlt).
  split; [eauto|]. split; [done|].
  exists i. split; [done|]. intros Htext.
  destruct Hlt as [Hnum|Hlt]; [congruence|].
  auto using string_ltb_not_leb.
Qed.


(** C10. A task row of the queried dataset, initiated after the bound, is
    left out by [get_task_rows] exactly when its status is the string
    FAILURE; in particular a row whose status is NULL is returned. *)
Theorem get_task_rows_null_status (w : world) (dataset_id initiated_after : string)
    (r : Task.row) (i : string) :
  wf_world w ->
  In r (generate_task (current w)) ->
  Task.dataset_id r = Some dataset_id ->
  Task.initiated r = Some i ->
  String.ltb initiated_after i = true ->
  exists rows w',
    get_task_rows dataset_id initiated_after w = (Return rows, w') /\
    (In (task_listing_of r) rows <-> Task.status r <> Some "FAILURE") /\
    (Task.status r = None -> In (task_listing_of r) rows).
Proof.
  intros Hwf Hin Hd Hi Hlt.
  destruct (get_task_rows_run w dataset_id initiated_after Hwf) as (w' & E & _).
  eexists _, w'. split; [exact E|].
  assert (Hkeep : Task.status r <> Some "FAILURE" ->
            In (task_listing_of r)
               (map task_listing_of
                  (List.filter (get_task_rows_where dataset_id initiated_after)
                               (generate_task (current w))))).
  { intros Hs. apply in_map. apply filter_In. split; [done|].
    apply get_task_rows_where_iff. eauto 6. }
  split; [split; [|done]|].
  - intros Hl. apply in_map_iff in Hl as (r' & Heq & Hr').
    apply filter_In in Hr' as (_ & Hw).
    apply get_task_rows_where_iff in Hw as (_ & Hs & _).
    assert (Task.status r' = Task.status r) as <-; [|done].
    change (tl_status (task_listing_of r') = tl_status (task_listing_of r)).
    by rewrite Heq.
  - intros Hs. apply Hkeep. by rewrite Hs.
Qed.

Lemma get_task_for_package_run w d pkg :
  wf_world w ->
  exists w',
    get_task_for_package d pkg w =
      (Return (fetchone (map (fun tp => Task.initiated (fst tp))
                 (join_task_package (task_for_package_on d pkg) (current w)))), w') /\
    disk w' = disk w /\ wf_world w' /\ current w' = current w.
Proof.
  intros Hwf.
  destruct (select_run (fun s => fetchone (map (fun tp => Task.initiated (fst tp))
              (join_task_package (task_for_package_on d pkg) s))) w Hwf)
    as (w' & E & Hd & _ & Hwf' & Hc).
  exists w'. done.
Qed.

(** C4. [get_task_for_package] returns the [initiated] cell of a task row
    of the given dataset whose [task_id] is the [generated_by] of a package
    row with the given filename; it returns no row exactly when no task and
    package are linked that way; and when one task alone is linked, the
    result is that task's [initiated]. *)
Theorem get_task_for_package_spec (w : world) (dataset_id package_name : string) :
  wf_world w ->
  exists res w',
    get_task_for_package dataset_id package_name w = (Return res, w') /\
    match res with
    | Some i =>
        exists t p, In t (generate_task (current w)) /\ In p (package (current w)) /\
                    package_link dataset_id package_name t p /\ i = Task.initiated t
    | None =>
        forall t p, In t (generate_task (current w)) -> In p (package (current w)) ->
                    ~ package_link dataset_id package_name t p
    end /\
    forall t p,
      In t (generate_task (current w)) -> In p (package (current w)) ->
      package_link dataset_id package_name t p ->
      (forall t' p', In t' (generate_task (current w)) -> In p' (package (current w)) ->
                     package_link dataset_id package_name t' p' -> t' = t) ->
      res = Some (Task.initiated t).
Proof.
  intros Hwf.
  destruct (get_task_for_package_run w dataset_id package_name Hwf) as (w' & E & _).
  eexists _, w'. split; [exact E|].
  set (pairs := join_task_package _ _).
  assert (Hpairs : forall t p, In (t, p) pairs <->
            In t (generate_task (current w)) /\ In p (package (current w)) /\
            package_link dataset_id package_name t p).
  { intros t p. unfold pairs. rewrite in_join_task_package, task_for_package_on_link.
    done. }
  clearbody pairs. destruct pairs as [|[t0 p0] rest]; simpl.
  - split.
    + intros t p Ht Hp Hl. apply (proj2 (Hpairs t p)). done.
    + intros t p Ht Hp Hl _. destruct (proj2 (Hpairs t p)). done.
  - destruct (proj1 (Hpairs t0 p0) (or_introl eq_refl)) as (Ht0 & Hp0 & Hl0). split.
    + exists t0, p0. done.
    + intros t p Ht Hp Hl Huniq. by rewrite (Huniq t0 p0 Ht0 Hp0 Hl0).
Qed.

(** C9. A lookup that matches no row returns Python's [None]; it does not
    raise.  This holds for [get_download_record], [get_package_row] and
    [get_task_for_package]. *)
Theorem lookups_return_none (w : world) :
  wf_world w ->
  (forall token,
     (forall r, In r (download (current w)) -> Download.token r <> Some token) ->
     exists w', get_download_record token w = (Return None, w')) /\
  (forall generated_by,
     (forall p, In p (package (current w)) -> Package.generated_by p <> Some generated_by) ->
     exists w', get_package_row generated_by w = (Return None, w')) /\
  (forall dataset_id package_name,
     (forall t p, In t (generate_task (current w)) -> In p (package (current w)) ->
                  ~ package_link dataset_id package_name t p) ->
     exists w', get_task_for_package dataset_id package_name w = (Return None, w')).
Proof.
  intros Hwf. split; [|split].
  - intros token Hno.
    destruct (select_run (fun s => fetchone (List.filter
                (fun r => holds (sql_eq (Download.token r) (Some token)))
                (download s))) w Hwf) as (w' & E & _).
    exists w'. unfold get_download_record. rewrite E. do 2 f_equal.
    apply fetchone_none. intros r Hr. apply filter_In in Hr as (Hin & Hm).
    apply holds_sql_eq in Hm. by apply (Hno r).
  - intros gb Hno.
    destruct (select_run (fun s => fetchone (map package_info_of (List.filter
                (fun p => holds (sql_eq (Package.generated_by p) (Some gb)))
                (package s)))) w Hwf) as (w' & E & _).
    exists w'. unfold get_package_row. rewrite E. do 2 f_equal.
    apply fetchone_none. intros r Hr. apply in_map_iff in Hr as (p & _ & Hp).
    apply filter_In in Hp as (Hin & Hm).
    apply holds_sql_eq in Hm. by apply (Hno p).
  - intros d pkg Hno.
    destruct (get_task_for_package_run w d pkg Hwf) as (w' & E & _).
    exists w'. rewrite E. do 2 f_equal.
    apply fetchone_none. intros i Hi. apply in_map_iff in Hi as ([t p] & _ & Htp).
    apply in_join_task_package in Htp as (Ht & Hp & Hon).
    apply task_for_package_on_link in Hon. by apply (Hno t p).
Qed.

(** ** Download records *)

Lemma existsb_false_filter {A} (f : A -> bool) (l : list A) :
  existsb f l = false -> List.filter f l = [].
Proof.
  intros H. apply filter_nil_iff. intros x Hx.
  destruct (f x) eqn:E; [|done].
  assert (existsb f l = true) by (apply existsb_exists; eauto). congruence.
Qed.

Lemma insert_download_cases tok fname s :
  match insert_download tok fname s with
  | Some s' =>
      existsb (fun r => holds (sql_eq (Download.token r) (Some tok))) (download s) = false /\
      s' = Store (download s ++ [Download.Row (Some tok) (Some fname)])
                 (generate_task s) (generate_scope s) (package s)
  | None =>
      existsb (fun r => holds (sql_eq (Download.token r) (Some tok))) (download s) = true
  end.
Proof. unfold insert_download. destruct (existsb _ _); done. Qed.

Lemma create_download_record_run w token filename :
  wf_world w ->
  exists w',
    wf_world w' /\
    match insert_download token filename (current w) with
    | Some s' =>
        create_download_record token filename w = (Return tt, w') /\
        disk w' = s' /\ current w' = s'
    | None =>
        create_download_record token filename w = (Raise ConstraintViolation, w') /\
        disk w' = disk w /\ current w' = current w
    end.
Proof.
  intros Hwf. destruct (get_db_ready w Hwf) as (h & w1 & E & Hd & Hn & Hr).
  unfold create_download_record, bind. rewrite E.
  destruct (execute_ready w1 h _ (fun _ => insert_download token filename) Hr)
    as (w2 & Hd2 & Hn2 & Hm).
  destruct (insert_download token filename (current w)) as [s'|].
  - destruct Hm as (-> & Hr2).
    destruct (commit_ready w2 h s' Hr2) as (w3 & -> & Hr3 & Hd3 & _).
    exists w3. destruct (ready_wf _ _ _ Hr3). done.
  - destruct Hm as (-> & Hr2). exists w2.
    destruct (ready_wf _ _ _ Hr2). repeat split; try done. congruence.
Qed.

(** C5. When [create_download_record token filename] has returned, the next
    [get_download_record token] returns a row, and that row holds the token
    and the filename just given. *)
Theorem create_then_get_download_record (w w1 : world) (token filename : string) :
  wf_world w ->
  create_download_record token filename w = (Return tt, w1) ->
  exists r w2,
    get_download_record token w1 = (Return (Some r), w2) /\
    Download.token r = Some token /\
    Download.filename r = Some filename.
Proof.
  intros Hwf Hcreate.
  destruct (create_download_record_run w token filename Hwf) as (w' & Hwf' & Hm).
  pose proof (insert_download_cases token filename (current w)) as Hins.
  destruct (insert_download token filename (current w)) as [s'|];
    destruct Hm as (E & Hd & Hc); rewrite E in Hcreate; [|done].
  injection Hcreate as <-. destruct Hins as (Hfresh & ->).
  destruct (select_run (fun s => fetchone (List.filter
              (fun r => holds (sql_eq (Download.token r) (Some token)))
              (download s))) w' Hwf') as (w2 & E2 & _).
  exists (Download.Row (Some token) (Some filename)), w2.
  unfold get_download_record. rewrite E2, Hc. simpl.
  rewrite List.filter_app, (existsb_false_filter _ _ Hfresh). simpl.
  rewrite String.eqb_refl. done.
Qed.

(** C7. Whatever the first [create_download_record] with a token did, a
    second one with the same token raises [ConstraintViolation], and the
    file is left as the first call left it. *)
Theorem create_download_record_twice (w w1 : world) (token filename filename' : string)
    (out : outcome unit) :
  wf_world w ->
  create_download_record token filename w = (out, w1) ->
  exists w2,
    create_download_record token filename' w1 = (Raise ConstraintViolation, w2) /\
    disk w2 = disk w1.
Proof.
  intros Hwf Hfirst.
  destruct (create_download_record_run w token filename Hwf) as (w' & Hwf' & Hm).
  pose proof (insert_download_cases token filename (current w)) as Hins.
  assert (Hthere : w' = w1 /\
            existsb (fun r => holds (sql_eq (Download.token r) (Some token)))
                    (download (current w')) = true).
  { destruct (insert_download token filename (current w)) as [s'|];
      destruct Hm as (E & Hd & Hc); rewrite E in Hfirst; injection Hfirst as _ <-;
      (split; [done|]); rewrite Hc.
    - destruct Hins as (_ & ->). simpl. rewrite existsb_app. simpl.
      rewrite String.eqb_refl. apply orb_true_iff. right. done.
    - done. }
  destruct Hthere as (<- & Hthere).
  destruct (create_download_record_run w' token filename' Hwf') as (w2 & _ & Hm2).
  pose proof (insert_download_cases token filename' (current w')) as Hins2.
  destruct (insert_download token filename' (current w')) as [s'|].
  - destruct Hins2. congruence.
  - exists w2. tauto.
Qed.

(** ** Generation tasks and their scope *)

Lemma insert_generate_scope_some task path s s' :
  insert_generate_scope task path s = Some s' ->
  s' = Store (download s) (generate_task s)
             (generate_scope s ++ [Scope.Row (Some task) (Some path)]) (package s).
Proof.
  unfold insert_generate_scope.
  destruct (existsb _ (generate_scope s)); [done|].
  destruct (existsb _ (generate_task s)); [|done]. by intros [= <-].
Qed.

Lemma insert_all_scope_some task paths : forall s s',
  insert_all_scope task paths s = Some s' ->
  s' = Store (download s) (generate_task s)
             (generate_scope s ++ map (fun f => Scope.Row (Some task) (Some f)) paths)
             (package s).
Proof.
  induction paths as [|f rest IH]; intros s s'; simpl.
  - intros [= <-]. rewrite app_nil_r. by destruct s.
  - destruct (insert_generate_scope task f s) as [s1|] eqn:E; [|done].
    intros H. apply IH in H. apply insert_generate_scope_some in E. subst s1.
    simpl in H. by rewrite <- app_assoc in H.
Qed.

Lemma create_task_rows_store_some clock d t p S s s' :
  create_task_rows_store clock d t p S s = Some s' ->
  task_fresh t s = true /\ s' = with_task clock d t p S s.
Proof.
  unfold create_task_rows_store, insert_generate_task, task_fresh.
  destruct (existsb _ (generate_task s)); [done|].
  intros H. apply insert_all_scope_some in H. done.
Qed.

Lemma insert_all_scope_succeeds task paths : forall s,
  existsb (fun r => holds (sql_eq (Task.task_id r) (Some task))) (generate_task s) = true ->
  NoDup paths ->
  (forall f, In f paths -> scope_has task f (generate_scope s) = false) ->
  exists s', insert_all_scope task paths s = Some s'.
Proof.
  induction paths as [|f rest IH]; intros s Htask Hnd Hfree; simpl; [eauto|].
  apply NoDup_cons in Hnd as (Hnotin & Hnd). rewrite list_elem_of_In in Hnotin.
  unfold insert_generate_scope.
  pose proof (Hfree f (or_introl eq_refl)) as Hf. unfold scope_has in Hf.
  rewrite Hf, Htask. apply IH; simpl; try done.
  intros f' Hf'. unfold scope_has. rewrite existsb_app. simpl.
  apply orb_false_iff. split; [apply Hfree; by right|].
  rewrite orb_false_r. rewrite String.eqb_refl. simpl.
  destruct (String.eqb_spec f f') as [->|]; done.
Qed.

Lemma scope_has_free task path rows :
  existsb (fun r => holds (sql_eq (Scope.task_id r) (Some task))) rows = false ->
  scope_has task path rows = false.
Proof.
  unfold scope_has. induction rows as [|r rows IH]; simpl; [done|].
  intros H. apply orb_false_iff in H as (Hr & Hrows).
  rewrite (IH Hrows), orb_false_r.
  destruct (holds (sql_and _ _)) eqn:E; [|done].
  apply holds_sql_and in E as (E & _). congruence.
Qed.

(** With the foreign key respected, a task id that no task row carries is
    carried by no scope row either. *)
Lemma ref_integrity_scope_free task s :
  ref_integrity s = true -> task_fresh task s = true -> scope_free task s = true.
Proof.
  unfold ref_integrity, task_fresh, scope_free. intros Hri Hfresh.
  apply negb_true_iff in Hfresh. apply negb_true_iff.
  destruct (existsb _ (generate_scope s)) eqn:E; [|done].
  apply existsb_exists in E as (r & Hr & Hm). apply holds_sql_eq in Hm.
  rewrite forallb_forall in Hri. specialize (Hri r Hr). rewrite Hm in Hri.
  congruence.
Qed.

Lemma create_task_rows_store_succeeds clock d t p S s :
  task_fresh t s = true -> scope_free t s = true -> NoDup S ->
  create_task_rows_store clock d t p S s = Some (with_task clock d t p S s).
Proof.
  intros Hfresh Hfree Hnd. unfold create_task_rows_store.
  pose proof Hfresh as Hfresh'. unfold task_fresh in Hfresh'.
  apply negb_true_iff in Hfresh'.
  unfold insert_generate_task at 1. rewrite Hfresh'.
  set (s1 := Store _ _ _ _).
  destruct (insert_all_scope_succeeds t S s1) as (s' & E); try done.
  - simpl. rewrite existsb_app. simpl. rewrite String.eqb_refl.
    apply orb_true_iff. right. done.
  - intros f _. apply scope_has_free. simpl.
    unfold scope_free in Hfree. by apply negb_true_iff in Hfree.
  - rewrite E. f_equal. by apply insert_all_scope_some in E.
Qed.

Lemma ref_integrity_insert_generate_scope task path s s' :
  insert_generate_scope task path s = Some s' ->
  ref_integrity s = true -> ref_integrity s' = true.
Proof.
  unfold insert_generate_scope.
  destruct (existsb _ (generate_scope s)); [done|].
  destruct (existsb _ (generate_task s)) eqn:Htask; [|done].
  intros [= <-] H. unfold ref_integrity in *. simpl.
  rewrite forallb_app, H. simpl. by rewrite Htask.
Qed.

Lemma ref_integrity_insert_generate_task clock d t st p s s' :
  insert_generate_task clock d t st p s = Some s' ->
  ref_integrity s = true -> ref_integrity s' = true.
Proof.
  unfold insert_generate_task.
  destruct (existsb _ (generate_task s)); [done|].
  intros [= <-] H. unfold ref_integrity in *. simpl.
  rewrite forallb_forall in *. intros r Hr.
  rewrite existsb_app. apply orb_true_iff. left. by apply H.
Qed.

Lemma insert_scope_rows_ready task paths : forall w h s,
  ready w h s ->
  exists w',
    disk w' = disk w /\ now w' = now w /\
    match insert_all_scope task paths s with
    | Some s' => insert_scope_rows h task paths w = (Return tt, w') /\ ready w' h s'
    | None =>
        insert_scope_rows h task paths w = (Raise ConstraintViolation, w') /\
        exists s', ready w' h s' /\ (ref_integrity s = true -> ref_integrity s' = true)
    end.
Proof.
  induction paths as [|f rest IH]; intros w h s Hr; simpl.
  - exists w. done.
  - unfold bind.
    destruct (execute_ready w h s (fun _ => insert_generate_scope task f) Hr)
      as (w1 & Hd1 & Hn1 & Hm).
    destruct (insert_generate_scope task f s) as [s1|] eqn:Hins.
    + destruct Hm as (-> & Hr1).
      destruct (IH w1 h s1 Hr1) as (w2 & Hd2 & Hn2 & Hm2).
      exists w2. split; [congruence|]. split; [congruence|].
      destruct (insert_all_scope task rest s1); [done|].
      destruct Hm2 as (-> & s' & Hr2 & Hri). split; [done|].
      exists s'. split; [done|].
      intros H. apply Hri. by apply (ref_integrity_insert_generate_scope _ _ _ _ Hins).
    + destruct Hm as (-> & Hr1). exists w1. eauto 8.
Qed.

Lemma create_task_rows_ready w w1 h s d t p S :
  get_db w = (Return h, w1) ->
  ready w1 h s ->
  exists w',
    now w' = now w1 /\
    match create_task_rows_store (now w1) d t p S s with
    | Some s' =>
        create_task_rows d t p S w =
          (Return (fetchone (map task_created_of
                     (List.filter (fun r => holds (sql_eq (Task.task_id r) (Some t)))
                                  (generate_task s')))), w') /\
        disk w' = s' /\ ready w' h s'
    | None =>
        create_task_rows d t p S w = (Raise ConstraintViolation, w') /\
        disk w' = disk w1 /\
        exists s', ready w' h s' /\ (ref_integrity s = true -> ref_integrity s' = true)
    end.
Proof.
  intros E Hr. unfold create_task_rows, bind. rewrite E.
  destruct (execute_ready w1 h s
              (fun clock => insert_generate_task clock d t "PENDING" p) Hr)
    as (w2 & Hd2 & Hn2 & Hm).
  unfold create_task_rows_store.
  destruct (insert_generate_task (now w1) d t "PENDING" p s) as [s1|] eqn:Hins.
  - destruct Hm as (-> & Hr2).
    destruct (insert_scope_rows_ready t S w2 h s1 Hr2) as (w3 & Hd3 & Hn3 & Hm3).
    destruct (insert_all_scope t S s1) as [s'|].
    + destruct Hm3 as (-> & Hr3).
      destruct (commit_ready w3 h s' Hr3) as (w4 & -> & Hr4 & Hd4 & Hn4).
      rewrite (query_ready _ _ _ _ Hr4).
      exists w4. split; [congruence|]. done.
    + destruct Hm3 as (-> & s' & Hr3 & Hri). exists w3.
      split; [congruence|]. split; [done|]. split; [congruence|].
      exists s'. split; [done|].
      intros H. apply Hri. by apply (ref_integrity_insert_generate_task _ _ _ _ _ _ _ Hins).
  - destruct Hm as (-> & Hr2). exists w2. eauto 8.
Qed.

(** The row that the final SELECT of [create_task_rows] finds. *)
Lemma created_row_found clock d t p S s :
  task_fresh t s = true ->
  fetchone (map task_created_of
     (List.filter (fun r => holds (sql_eq (Task.task_id r) (Some t)))
                  (generate_task (with_task clock d t p S s)))) =
  Some (TaskCreated (Some clock) (Some t) (Some "PENDING") None).
Proof.
  intros Hfresh. unfold task_fresh in Hfresh. apply negb_true_iff in Hfresh.
  simpl. rewrite List.filter_app, (existsb_false_filter _ _ Hfresh). simpl.
  rewrite String.eqb_refl. done.
Qed.

(** C1. On a store that respects the foreign key, for a task id not yet in
    use and a duplicate-free scope, [create_task_rows] returns; the file
    then holds what the unit of work saw before, one more task row with
    status PENDING and [initiated] at the current time, and one more scope
    row per filepath; nothing is left pending on the connection; and the
    row returned is that task row's [initiated], [task_id], [status] and
    [date_done]. *)
Theorem create_task_rows_spec (w : world) (dataset_id task_id : string)
    (is_partial : bool) (scope : list string) :
  wf_world w ->
  ref_integrity (current w) = true ->
  task_fresh task_id (current w) = true ->
  NoDup scope ->
  exists w',
    create_task_rows dataset_id task_id is_partial scope w =
      (Return (Some (TaskCreated (Some (now w)) (Some task_id) (Some "PENDING") None)),
       w') /\
    disk w' = with_task (now w) dataset_id task_id is_partial scope (current w) /\
    current w' = disk w' /\
    wf_world w'.
Proof.
  intros Hwf Hri Hfresh Hnd.
  destruct (get_db_ready w Hwf) as (h & w1 & E & Hd & Hn & Hr).
  destruct (create_task_rows_ready w w1 h _ dataset_id task_id is_partial scope E Hr)
    as (w' & Hn' & Hm).
  rewrite (create_task_rows_store_succeeds (now w1) dataset_id task_id is_partial
             scope (current w) Hfresh (ref_integrity_scope_free _ _ Hri Hfresh) Hnd) in Hm.
  destruct Hm as (Hrun & Hdisk & Hready).
  rewrite created_row_found in Hrun by done. rewrite Hn in *.
  destruct (ready_wf _ _ _ Hready) as (Hwf' & Hc).
  exists w'. split; [done|]. split; [done|]. split; [congruence|done].
Qed.

Lemma close_db_disk w :
  disk (snd (close_db w)) = disk w /\ current (snd (close_db w)) = disk w.
Proof. unfold close_db, conn_close. destruct (g_db w); done. Qed.

(** C2, as amended.  When [create_task_rows] raises, also after the task
    row and some scope rows were inserted, the file is as it was before
    the call, so no other unit of work sees the task, and it is still so
    once [close_db] has ended the unit of work, which then reads the file
    as it was; when the call returns, the file holds the task row together
    with all its scope rows.  The call that raises does not roll back:
    what a later commit of the same unit of work then writes is shown by
    the counterexample. *)
Theorem create_task_rows_atomic (w : world) (dataset_id task_id : string)
    (is_partial : bool) (scope : list string) :
  match create_task_rows dataset_id task_id is_partial scope w with
  | (Raise _, w') =>
      disk w' = disk w /\
      disk (snd (close_db w')) = disk w /\
      current (snd (close_db w')) = disk w
  | (Return _, w') =>
      disk w' = with_task (now w) dataset_id task_id is_partial scope (current w)
  end.
Proof.
  assert (Hclose : forall w', disk w' = disk w ->
            disk w' = disk w /\
            disk (snd (close_db w')) = disk w /\
            current (snd (close_db w')) = disk w).
  { intros w' Hd. destruct (close_db_disk w') as (H1 & H2).
    split; [done|]. split; congruence. }
  destruct (get_db_cases w) as (h & w1 & E & Hd & Hn & [Hr|[-> Hl]]).
  - destruct (create_task_rows_ready w w1 h _ dataset_id task_id is_partial scope E Hr)
      as (w' & Hn' & Hm).
    destruct (create_task_rows_store (now w1) dataset_id task_id is_partial scope
                (current w)) as [s'|] eqn:Hs.
    + destruct Hm as (-> & Hdisk & _).
      apply create_task_rows_store_some in Hs as (_ & ->). congruence.
    + destruct Hm as (-> & Hdisk & _). apply Hclose. congruence.
  - unfold create_task_rows, bind. rewrite E. unfold execute. rewrite Hl.
    by apply Hclose.
Qed.

(** C2, the claim as it was stated fails.  A call whose scope names a.txt
    twice raises at the second a.txt; when the unit of work goes on and
    [create_download_record] commits, the file holds the task row of T1
    with the scope row of a.txt alone: the task is visible to every other
    unit of work, without its scope row for c.txt. *)
Lemma create_task_rows_atomic_counterexample :
  let failed := create_task_rows "D1" "T1" false ["a.txt"; "a.txt"; "c.txt"] w_empty in
  let w2 := snd (create_download_record "tok" "T1.zip" (snd failed)) in
  fst failed = Raise ConstraintViolation /\
  generate_task (disk (snd failed)) = [] /\
  map Task.task_id (generate_task (disk w2)) = [Some "T1"] /\
  map Scope.filepath (generate_scope (disk w2)) = [Some "a.txt"].
Proof. vm_compute. repeat split. Qed.

(** A call that fails in the middle of the scope loop: the file has no
    task row, while the connection of the failed call still holds the task
    row and the first scope row in its pending transaction. *)
Example create_task_rows_mid_failure :
  let w := World empty_store [] None "2020-05-04 10:00:00" in
  let '(out, w') := create_task_rows "D1" "T1" false ["a.txt"; "a.txt"] w in
  out = Raise ConstraintViolation /\
  generate_task (disk w') = [] /\ generate_scope (disk w') = [] /\
  map Task.task_id (generate_task (current w')) = [Some "T1"] /\
  map Scope.filepath (generate_scope (current w')) = [Some "a.txt"].
Proof. vm_compute. repeat split. Qed.

Lemma get_generate_scope_filepaths_run w t :
  wf_world w ->
  exists w',
    get_generate_scope_filepaths t w =
      (Return (list_to_set (map Scope.filepath
                 (List.filter (fun r => holds (sql_eq (Scope.task_id r) (Some t)))
                              (generate_scope (current w))))), w') /\
    disk w' = disk w /\ wf_world w' /\ current w' = current w.
Proof.
  intros Hwf.
  destruct (select_run (fun s => fetchall
              (List.filter (fun r => holds (sql_eq (Scope.task_id r) (Some t)))
                           (generate_scope s))) w Hwf)
    as (w' & E & Hd & _ & Hwf' & Hc).
  exists w'. split; [|done].
  unfold get_generate_scope_filepaths.
  unfold bind at 1. unfold bind in E. 
  destruct (get_db w) as [[h|e] w1]; [|done].
  unfold bind. rewrite E. done.
Qed.

Lemma filter_scope_rows_own t S :
  List.filter (fun r => holds (sql_eq (Scope.task_id r) (Some t)))
              (map (fun f => Scope.Row (Some t) (Some f)) S) =
  map (fun f => Scope.Row (Some t) (Some f)) S.
Proof.
  induction S as [|f S IH]; simpl; [done|].
  rewrite String.eqb_refl. simpl. by rewrite IH.
Qed.

(** C6. On a store that respects the foreign key: once [create_task_rows]
    has returned for a task with the filepaths [scope],
    [get_generate_scope_filepaths] returns exactly the set of those
    filepaths; and for a task id that no scope row carries, or that no task
    row carries, it returns the empty set. *)
Theorem scope_of_created_task (w : world) (dataset_id task_id : string)
    (is_partial : bool) (scope : list string) :
  wf_world w ->
  ref_integrity (current w) = true ->
  (forall r w1,
     create_task_rows dataset_id task_id is_partial scope w = (Return r, w1) ->
     exists w2,
       get_generate_scope_filepaths task_id w1 =
         (Return (list_to_set (map Some scope)), w2)) /\
  (scope_free task_id (current w) = true \/ task_fresh task_id (current w) = true ->
   exists w2, get_generate_scope_filepaths task_id w = (Return ∅, w2)).
Proof.
  intros Hwf Hri. split.
  - intros r w1 Hrun.
    destruct (get_db_ready w Hwf) as (h & w0 & E & Hd & Hn & Hr).
    destruct (create_task_rows_ready w w0 h _ dataset_id task_id is_partial scope E Hr)
      as (w' & Hn' & Hm).
    destruct (create_task_rows_store (now w0) dataset_id task_id is_partial scope
                (current w)) as [s'|] eqn:Hs;
      destruct Hm as (Hrun' & Hdisk & Hready); rewrite Hrun' in Hrun; [|done].
    injection Hrun as _ <-.
    apply create_task_rows_store_some in Hs as (Hfresh & ->).
    destruct (ready_wf _ _ _ Hready) as (Hwf' & Hc).
    destruct (get_generate_scope_filepaths_run w' task_id Hwf') as (w2 & E2 & _).
    exists w2. rewrite E2, Hc. simpl.
    pose proof (ref_integrity_scope_free _ _ Hri Hfresh) as Hfree.
    unfold scope_free in Hfree. apply negb_true_iff in Hfree.
    rewrite List.filter_app, (existsb_false_filter _ _ Hfree), filter_scope_rows_own.
    simpl. rewrite map_map. done.
  - intros Hno.
    assert (Hfree : scope_free task_id (current w) = true).
    { destruct Hno; [done|]. by apply ref_integrity_scope_free. }
    unfold scope_free in Hfree. apply negb_true_iff in Hfree.
    destruct (get_generate_scope_filepaths_run w task_id Hwf) as (w2 & E2 & _).
    exists w2. rewrite E2, (existsb_false_filter _ _ Hfree). done.
Qed.

(** ** The connection of a unit of work *)

Lemma get_db_reuse w h : g_db w = Some h -> get_db w = (Return h, w).
Proof. intros Hg. unfold get_db. by rewrite Hg. Qed.

Lemma get_db_times_reuse w h :
  g_db w = Some h -> forall n, get_db_times n w = (Return (replicate n h), w).
Proof.
  intros Hg. induction n as [|n IH]; simpl; [done|].
  unfold bind. rewrite (get_db_reuse w h Hg), IH. done.
Qed.

Lemma close_db_closes w h :
  g_db w = Some h ->
  close_db w =
    (Return tt, World (disk w) (<[h := Connection false None]> (conns w)) None (now w)).
Proof. intros Hg. unfold close_db. by rewrite Hg. Qed.

Lemma close_db_slot_empty w out w' : close_db w = (out, w') -> g_db w' = None.
Proof.
  unfold close_db. destruct (g_db w) as [h|]; unfold conn_close; simpl;
    by intros [= _ <-].
Qed.

(** C8. In a unit of work that starts with no connection in [g], any
    number of [get_db] calls opens one physical connection in all, and
    every call returns that same open handle; a [get_db] that finds a
    handle in [g] returns it and changes nothing.  [close_db] closes the
    handle that [g] holds and empties the slot, without opening or losing a
    connection; with an empty slot it changes nothing; so a second
    [close_db] is a no-op. *)
Theorem connection_scope (w : world) :
  (g_db w = None ->
   forall n, exists w',
     get_db_times (S n) w = (Return (replicate (S n) (length (conns w))), w') /\
     length (conns w') = S (length (conns w)) /\
     g_db w' = Some (length (conns w)) /\
     live w' (length (conns w)) = true) /\
  (forall h, g_db w = Some h -> get_db w = (Return h, w)) /\
  (forall h, g_db w = Some h ->
   exists w',
     close_db w = (Return tt, w') /\ g_db w' = None /\ live w' h = false /\
     length (conns w') = length (conns w)) /\
  (g_db w = None -> close_db w = (Return tt, w)) /\
  (forall out w', close_db w = (out, w') -> close_db w' = (Return tt, w')).
Proof.
  split; [|split; [|split; [|split]]].
  - intros Hg n.
    set (w1 := World (disk w) (conns w ++ [Connection true None])
                     (Some (length (conns w))) (now w)).
    assert (E : get_db w = (Return (length (conns w)), w1)).
    { unfold get_db. by rewrite Hg. }
    exists w1. simpl. unfold bind at 1. rewrite E.
    unfold bind. rewrite (get_db_times_reuse w1 (length (conns w)) eq_refl n).
    split; [done|]. split; [|split; [done|]].
    + simpl. rewrite length_app. simpl. lia.
    + unfold live. simpl. by rewrite lookup_app_r, Nat.sub_diag.
  - apply get_db_reuse.
  - intros h Hg. eexists. split; [by apply close_db_closes|]. simpl.
    split; [done|]. split; [|by rewrite length_insert].
    unfold live. simpl.
    destruct (decide (h < length (conns w))) as [Hlt|Hge].
    + by rewrite list_lookup_insert_eq.
    + rewrite list_insert_ge by lia.
      destruct (conns w !! h) eqn:El; [|done].
      apply lookup_lt_Some in El. lia.
  - intros Hg. unfold close_db. rewrite Hg. destruct w. simpl in *. by subst.
  - intros out w' Hclose. apply close_db_slot_empty in Hclose.
    unfold close_db. rewrite Hclose. destruct w'. simpl in *. by subst.
Qed.

(** ** The invariants are kept *)

Lemma existsb_app_l {A} (f : A -> bool) (l l' : list A) :
  existsb f l = true -> existsb f (l ++ l') = true.
Proof. intros H. rewrite existsb_app, H. done. Qed.

(** A new download record does not touch tasks or scopes. *)
Lemma ref_integrity_insert_download tok fname s s' :
  insert_download tok fname s = Some s' -> ref_integrity s = true ->
  ref_integrity s' = true.
Proof.
  intros H. pose proof (insert_download_cases tok fname s) as Hc.
  rewrite H in Hc. destruct Hc as (_ & ->). done.
Qed.

(** The rows of a new task respect the foreign key. *)
Lemma ref_integrity_with_task clock d t p S s :
  ref_integrity s = true -> ref_integrity (with_task clock d t p S s) = true.
Proof.
  unfold ref_integrity. simpl. intros H. rewrite forallb_app.
  apply andb_true_iff. split.
  - rewrite forallb_forall in *. intros r Hr. apply existsb_app_l. by apply H.
  - apply forallb_forall. intros r Hr. apply in_map_iff in Hr as (f & <- & _).
    simpl. rewrite existsb_app. simpl. rewrite String.eqb_refl.
    apply orb_true_iff. right. done.
Qed.

(** A unit of work that starts on the initialised database is consistent. *)
Lemma consistent_initial clock : consistent (World empty_store [] None clock).
Proof. by repeat split. Qed.

Lemma consistent_select {A} (q : store -> A) w out w' :
  consistent w ->
  (let! db_conn := get_db in query db_conn q) w = (out, w') ->
  consistent w'.
Proof.
  intros (Hwf & Hc & Hd) Hrun.
  destruct (select_run q w Hwf) as (w2 & E & Hd2 & _ & Hwf2 & Hc2).
  rewrite E in Hrun. injection Hrun as _ <-.
  unfold consistent. rewrite Hc2, Hd2. done.
Qed.

(** X15. Every function of the module keeps the invariant of a unit of
    work, whether it returns or raises: [g] stays well formed, and the
    foreign key of the scope rows holds in what the unit of work reads and
    in the file. *)
Theorem consistent_kept (w : world) :
  consistent w ->
  (forall out w', get_db w = (out, w') -> consistent w') /\
  (forall out w', close_db w = (out, w') -> consistent w') /\
  (forall token out w', get_download_record token w = (out, w') -> consistent w') /\
  (forall d T out w', get_task_rows d T w = (out, w') -> consistent w') /\
  (forall gb out w', get_package_row gb w = (out, w') -> consistent w') /\
  (forall d pkg out w', get_task_for_package d pkg w = (out, w') -> consistent w') /\
  (forall t out w', get_generate_scope_filepaths t w = (out, w') -> consistent w') /\
  (forall token f out w',
     create_download_record token f w = (out, w') -> consistent w') /\
  (forall d t p S out w', create_task_rows d t p S w = (out, w') -> consistent w').
Proof.
  intros Hcons. pose proof Hcons as (Hwf & Hc & Hd).
  repeat match goal with |- _ /\ _ => split end.
  - intros out w' Hrun.
    destruct (get_db_ready w Hwf) as (h & w1 & E & Hd1 & _ & Hr).
    rewrite E in Hrun. injection Hrun as _ <-.
    destruct (ready_wf _ _ _ Hr) as (Hwf1 & Hc1).
    unfold consistent. rewrite Hc1, Hd1. done.
  - intros out w' Hrun. unfold close_db in Hrun.
    destruct (g_db w) as [h|]; unfold conn_close in Hrun; simpl in Hrun;
      injection Hrun as _ <-; by repeat split.
  - intros token out w'. apply consistent_select, Hcons.
  - intros d T out w'. apply consistent_select, Hcons.
  - intros gb out w'. apply consistent_select, Hcons.
  - intros d pkg out w'. apply consistent_select, Hcons.
  - intros t out w' Hrun.
    destruct (get_generate_scope_filepaths_run w t Hwf) as (w2 & E & Hd2 & Hwf2 & Hc2).
    rewrite E in Hrun. injection Hrun as _ <-.
    unfold consistent. rewrite Hc2, Hd2. done.
  - intros token f out w' Hrun.
    destruct (create_download_record_run w token f Hwf) as (w2 & Hwf2 & Hm).
    destruct (insert_download token f (current w)) as [s'|] eqn:Hins;
      destruct Hm as (E & Hd2 & Hc2); rewrite E in Hrun; injection Hrun as _ <-;
      unfold consistent; rewrite Hc2, Hd2; try done.
    pose proof (ref_integrity_insert_download _ _ _ _ Hins Hc). done.
  - intros d t p S out w' Hrun.
    destruct (get_db_ready w Hwf) as (h & w1 & E & Hd1 & Hn1 & Hr).
    destruct (create_task_rows_ready w w1 h _ d t p S E Hr) as (w2 & _ & Hm).
    destruct (create_task_rows_store (now w1) d t p S (current w)) as [s'|] eqn:Hs.
    + destruct Hm as (E2 & Hd2 & Hr2). rewrite E2 in Hrun. injection Hrun as _ <-.
      destruct (ready_wf _ _ _ Hr2) as (Hwf2 & Hc2).
      apply create_task_rows_store_some in Hs as (_ & ->).
      unfold consistent. rewrite Hc2, Hd2.
      pose proof (ref_integrity_with_task (now w1) d t p S _ Hc). done.
    + destruct Hm as (E2 & Hd2 & s' & Hr2 & Hri). rewrite E2 in Hrun.
      injection Hrun as _ <-.
      destruct (ready_wf _ _ _ Hr2) as (Hwf2 & Hc2).
      unfold consistent. rewrite Hc2, Hd2, Hd1. auto.
Qed.

(** ** Worked scenarios *)

(** A task is created, then listed for its dataset. *)
Example scenario_create_then_list :
  fst ((create_task_rows "D1" "T1" false ["a.txt"; "b.txt"] ;;
        get_task_rows "D1" "") w_empty) =
  Return [TaskListing (Some "2020-05-04 10:00:00") None (Some "T1") (Some "PENDING") false].
Proof. reflexivity. Qed.

(** The package of T1 is found by its task, and the task by the package. *)
Example scenario_package :
  fst (get_package_row "T1" w_sample) =
    Return (Some (PackageInfo (Some "T1.zip") (Some 100%Z) (Some "abc"))) /\
  fst (get_task_for_package "D1" "T1.zip" w_sample) =
    Return (Some (Some "2020-05-04 10:00:00")).
Proof. split; reflexivity. Qed.

(** The rows of a failed call are dropped when [close_db] ends the unit of
    work: nothing of the task is left, in the file or for a later reader. *)
Example failed_create_then_close :
  let w1 := snd (create_task_rows "D1" "T1" false ["a.txt"; "a.txt"; "c.txt"] w_empty) in
  let w2 := snd (close_db w1) in
  map Task.task_id (generate_task (current w1)) = [Some "T1"] /\
  disk w2 = empty_store /\ current w2 = empty_store.
Proof. vm_compute. repeat split. Qed.

(** ** The properties at concrete worlds *)

Lemma create_task_rows_spec_witness :
  exists w',
    create_task_rows "D1" "T1" false ["a.txt"; "b.txt"] w_empty =
      (Return (Some (TaskCreated (Some (now w_empty)) (Some "T1") (Some "PENDING") None)),
       w') /\
    disk w' = with_task (now w_empty) "D1" "T1" false ["a.txt"; "b.txt"]
                        (current w_empty) /\
    current w' = disk w' /\
    wf_world w'.
Proof.
  apply (create_task_rows_spec w_empty "D1" "T1" false ["a.txt"; "b.txt"]).
  - exact I.
  - reflexivity.
  - reflexivity.
  - apply (bool_decide_unpack _). vm_compute. exact I.
Defined.

Lemma get_task_rows_sound_text_bound_witness :
  fst (get_task_rows "D1" "2020-05-04 10:00:00" w_sample) =
    Return [TaskListing (Some "2020-05-05 08:00:00") None (Some "T2") None true] /\
  forall l,
    In l [TaskListing (Some "2020-05-05 08:00:00") None (Some "T2") None true] ->
    (exists r, In r (generate_task (current w_sample)) /\ l = task_listing_of r /\
               Task.dataset_id r = Some "D1") /\
    tl_status l <> Some "FAILURE" /\
    exists i, tl_initiated l = Some i /\
              (numeric_literal "2020-05-04 10:00:00" = false ->
               String.ltb "2020-05-04 10:00:00" i = true /\
               String.leb i "2020-05-04 10:00:00" = false).
Proof.
  split; [reflexivity|].
  apply (get_task_rows_sound_text_bound w_sample
           (snd (get_task_rows "D1" "2020-05-04 10:00:00" w_sample))
           "D1" "2020-05-04 10:00:00").
  - exact I.
  - reflexivity.
Defined.

Lemma get_task_for_package_spec_witness :
  exists res w',
    get_task_for_package "D1" "T1.zip" w_sample = (Return res, w') /\
    match res with
    | Some i =>
        exists t p, In t (generate_task (current w_sample)) /\
                    In p (package (current w_sample)) /\
                    package_link "D1" "T1.zip" t p /\ i = Task.initiated t
    | None =>
        forall t p, In t (generate_task (current w_sample)) ->
                    In p (package (current w_sample)) ->
                    ~ package_link "D1" "T1.zip" t p
    end /\
    forall t p,
      In t (generate_task (current w_sample)) -> In p (package (current w_sample)) ->
      package_link "D1" "T1.zip" t p ->
      (forall t' p', In t' (generate_task (current w_sample)) ->
                     In p' (package (current w_sample)) ->
                     package_link "D1" "T1.zip" t' p' -> t' = t) ->
      res = Some (Task.initiated t).
Proof. apply (get_task_for_package_spec w_sample "D1" "T1.zip"). exact I. Defined.

Lemma create_then_get_download_record_witness :
  exists r w2,
    get_download_record "tok"
      (snd (create_download_record "tok" "T1.zip" w_empty)) = (Return (Some r), w2) /\
    Download.token r = Some "tok" /\
    Download.filename r = Some "T1.zip".
Proof.
  apply (create_then_get_download_record w_empty _ "tok" "T1.zip").
  - exact I.
  - reflexivity.
Defined.

Lemma scope_of_created_task_witness :
  (exists w2,
     get_generate_scope_filepaths "T9"
       (snd (create_task_rows "D1" "T9" false ["a.txt"; "b.txt"; "c.txt"] w_sample)) =
       (Return (list_to_set [Some "a.txt"; Some "b.txt"; Some "c.txt"]), w2)) /\
  (exists w2, get_generate_scope_filepaths "T9" w_sample = (Return ∅, w2)).
Proof.
  destruct (scope_of_created_task w_sample "D1" "T9" false ["a.txt"; "b.txt"; "c.txt"]
              I eq_refl) as (Hcreated & Hnone).
  split.
  - apply (Hcreated (Some (TaskCreated (Some "2020-05-07 12:00:00") (Some "T9")
                                      (Some "PENDING") None))).
    reflexivity.
  - apply Hnone. left. reflexivity.
Defined.

Lemma create_download_record_twice_witness :
  exists w2,
    create_download_record "tok" "T1.zip"
      (snd (create_download_record "tok" "T1.zip" w_empty)) =
      (Raise ConstraintViolation, w2) /\
    disk w2 = disk (snd (create_download_record "tok" "T1.zip" w_empty)).
Proof.
  apply (create_download_record_twice w_empty _ "tok" "T1.zip" "T1.zip" (Return tt)).
  - exact I.
  - reflexivity.
Defined.

Lemma connection_scope_witness :
  (exists w',
     get_db_times 3 w_empty = (Return [0; 0; 0], w') /\
     length (conns w') = 1 /\ g_db w' = Some 0 /\ live w' 0 = true) /\
  (exists w',
     close_db (snd (get_db w_empty)) = (Return tt, w') /\ g_db w' = None /\
     live w' 0 = false /\ length (conns w') = 1) /\
  close_db w_empty = (Return tt, w_empty).
Proof.
  split; [|split].
  - apply (proj1 (connection_scope w_empty) eq_refl 2).
  - apply (proj1 (proj2 (proj2 (connection_scope (snd (get_db w_empty))))) 0 eq_refl).
  - apply (proj1 (proj2 (proj2 (proj2 (connection_scope w_empty)))) eq_refl).
Defined.

Lemma lookups_return_none_witness :
  (exists w', get_download_record "tok" w_sample = (Return None, w')) /\
  (exists w', get_package_row "T2" w_sample = (Return None, w')) /\
  (exists w', get_task_for_package "D2" "T1.zip" w_sample = (Return None, w')).
Proof.
  destruct (lookups_return_none w_sample I) as (Hd & Hp & Ht).
  split; [|split].
  - apply Hd. intros r Hr. destruct Hr.
  - apply Hp. intros p Hin. simpl in Hin. destruct Hin as [<-|[]]. discriminate.
  - apply Ht. intros t p Hin _ (Hds & _). simpl in Hin.
    destruct Hin as [<-|[<-|[<-|[]]]]; discriminate.
Defined.

Lemma get_task_rows_null_status_witness :
  exists rows w',
    get_task_rows "D1" "" w_sample = (Return rows, w') /\
    (In (TaskListing (Some "2020-05-05 08:00:00") None (Some "T2") None true) rows <->
     (None : text) <> Some "FAILURE") /\
    ((None : text) = None ->
     In (TaskListing (Some "2020-05-05 08:00:00") None (Some "T2") None true) rows).
Proof.
  apply (get_task_rows_null_status w_sample "D1" ""
           (Task.Row (Some "D1") (Some "T2") None true (Some "2020-05-05 08:00:00") None)
           "2020-05-05 08:00:00").
  - exact I.
  - simpl. right. left. reflexivity.
  - reflexivity.
  - reflexivity.
  - reflexivity.
Defined.

(** * Further properties of the module *)

(** ** Lookups *)

Lemma fetchone_some_in {A} (rows : list A) (r : A) :
  fetchone rows = Some r -> In r rows.
Proof. destruct rows as [|a rows]; simpl; [done|]. intros [= <-]. by left. Qed.

Lemma get_download_record_run w token :
  wf_world w ->
  exists w',
    get_download_record token w =
      (Return (fetchone (List.filter
                 (fun r => holds (sql_eq (Download.token r) (Some token)))
                 (download (current w)))), w') /\
    disk w' = disk w /\ wf_world w' /\ current w' = current w.
Proof.
  intros Hwf.
  destruct (select_run (fun s => fetchone (List.filter
              (fun r => holds (sql_eq (Download.token r) (Some token)))
              (download s))) w Hwf) as (w' & E & Hd & _ & Hwf' & Hc).
  exists w'. done.
Qed.

Lemma get_package_row_run w gb :
  wf_world w ->
  exists w',
    get_package_row gb w =
      (Return (fetchone (map package_info_of (List.filter
                 (fun p => holds (sql_eq (Package.generated_by p) (Some gb)))
                 (package (current w))))), w') /\
    disk w' = disk w /\ wf_world w' /\ current w' = current w.
Proof.
  intros Hwf.
  destruct (select_run (fun s => fetchone (map package_info_of (List.filter
              (fun p => holds (sql_eq (Package.generated_by p) (Some gb)))
              (package s)))) w Hwf) as (w' & E & Hd & _ & Hwf' & Hc).
  exists w'. done.
Qed.

(** [get_db] followed by a SELECT writes nothing, whatever [g] holds and
    however the SELECT ends. *)
Lemma select_writes_nothing {A} (q : store -> A) w out w' :
  (let! db_conn := get_db in query db_conn q) w = (out, w') ->
  disk w' = disk w /\ current w' = current w.
Proof.
  destruct (get_db_cases w) as (h & w1 & E & Hd & _ & [Hr|[-> Hl]]);
    unfold bind; rewrite E.
  - rewrite (query_ready _ _ _ _ Hr). intros [= _ <-].
    destruct (ready_wf _ _ _ Hr) as (_ & Hc). done.
  - unfold query. rewrite Hl. by intros [= _ <-].
Qed.

(** X1. The five lookups never write: whatever [g] holds, and whether the
    lookup returns or raises, the file and the rows that the unit of work
    reads are afterwards what they were. *)
Theorem lookups_read_only (w : world) :
  (forall token out w',
     get_download_record token w = (out, w') ->
     disk w' = disk w /\ current w' = current w) /\
  (forall d T out w',
     get_task_rows d T w = (out, w') ->
     disk w' = disk w /\ current w' = current w) /\
  (forall gb out w',
     get_package_row gb w = (out, w') ->
     disk w' = disk w /\ current w' = current w) /\
  (forall t out w',
     get_generate_scope_filepaths t w = (out, w') ->
     disk w' = disk w /\ current w' = current w) /\
  (forall d pkg out w',
     get_task_for_package d pkg w = (out, w') ->
     disk w' = disk w /\ current w' = current w).
Proof.
  repeat match goal with |- _ /\ _ => split end.
  - intros token out w'. apply select_writes_nothing.
  - intros d T out w'. apply select_writes_nothing.
  - intros gb out w'. apply select_writes_nothing.
  - intros t out w'. unfold get_generate_scope_filepaths.
    set (q := fun s : store => fetchall (List.filter
                (fun r => holds (sql_eq (Scope.task_id r) (Some t)))
                (generate_scope s))).
    pose proof (select_writes_nothing q w) as Hsel.
    unfold bind in *. destruct (get_db w) as [[h|e] w1].
    + destruct (query h q w1) as [[rows|e] w2].
      * intros [= _ <-]. by apply (Hsel (Return rows)).
      * intros [= _ <-]. by apply (Hsel (Raise e)).
    + intros [= _ <-]. by apply (Hsel (Raise e)).
  - intros d pkg out w'. apply select_writes_nothing.
Qed.

(** X2. [get_download_record] finds a row exactly when the download table
    has one for the token, and the row it returns is a row of the table
    that carries this token. *)
Theorem get_download_record_found (w : world) (token : string) :
  wf_world w ->
  exists res w',
    get_download_record token w = (Return res, w') /\
    match res with
    | Some r => In r (download (current w)) /\ Download.token r = Some token
    | None => forall r, In r (download (current w)) -> Download.token r <> Some token
    end.
Proof.
  intros Hwf. destruct (get_download_record_run w token Hwf) as (w' & E & _).
  eexists _, w'. split; [exact E|].
  destruct (fetchone _) as [r|] eqn:Hf.
  - apply fetchone_some_in, filter_In in Hf as (Hin & Hm).
    by apply holds_sql_eq in Hm.
  - intros r Hin Htok. apply (proj1 (fetchone_none _) Hf r).
    apply filter_In. split; [done|]. by apply holds_sql_eq.
Qed.

(** X3. [get_package_row] returns the filename, size and checksum of a
    package row whose [generated_by] is the task id, none exactly when the
    task has no package row, and the columns of that row when the task has
    one package row only. *)
Theorem get_package_row_found (w : world) (generated_by : string) :
  wf_world w ->
  exists res w',
    get_package_row generated_by w = (Return res, w') /\
    match res with
    | Some info =>
        exists p, In p (package (current w)) /\
                  Package.generated_by p = Some generated_by /\
                  info = package_info_of p
    | None =>
        forall p, In p (package (current w)) ->
                  Package.generated_by p <> Some generated_by
    end /\
    forall p,
      In p (package (current w)) -> Package.generated_by p = Some generated_by ->
      (forall p', In p' (package (current w)) ->
                  Package.generated_by p' = Some generated_by -> p' = p) ->
      res = Some (package_info_of p).
Proof.
  intros Hwf. destruct (get_package_row_run w generated_by Hwf) as (w' & E & _).
  eexists _, w'. split; [exact E|].
  set (rows := List.filter _ _).
  assert (Hrows : forall p, In p rows <->
            In p (package (current w)) /\ Package.generated_by p = Some generated_by).
  { intros p. unfold rows. rewrite filter_In, holds_sql_eq. done. }
  clearbody rows. destruct rows as [|p0 rest]; simpl.
  - split.
    + intros p Hin Hgb. apply (proj2 (Hrows p)). done.
    + intros p Hin Hgb _. destruct (proj2 (Hrows p)). done.
  - destruct (proj1 (Hrows p0) (or_introl eq_refl)) as (Hin0 & Hgb0). split.
    + exists p0. done.
    + intros p Hin Hgb Huniq. by rewrite (Huniq p0 Hin0 Hgb0).
Qed.

(** ** Download records *)

(** X4. [create_download_record] either returns or raises
    [ConstraintViolation].  It returns exactly when the token is new to
    the unit of work; its commit then writes to the file everything the
    unit of work had pending together with the new row, and touches no
    other table.  It raises exactly when the token is there already, and
    then neither the file nor the rows the unit of work reads change. *)
Theorem create_download_record_effect (w : world) (token filename : string) :
  wf_world w ->
  match create_download_record token filename w with
  | (Return _, w') =>
      (forall r, In r (download (current w)) -> Download.token r <> Some token) /\
      disk w' = Store (download (current w) ++
                         [Download.Row (Some token) (Some filename)])
                      (generate_task (current w)) (generate_scope (current w))
                      (package (current w)) /\
      current w' = disk w'
  | (Raise e, w') =>
      e = ConstraintViolation /\
      (exists r, In r (download (current w)) /\ Download.token r = Some token) /\
      disk w' = disk w /\ current w' = current w
  end.
Proof.
  intros Hwf.
  destruct (create_download_record_run w token filename Hwf) as (w' & _ & Hm).
  pose proof (insert_download_cases token filename (current w)) as Hins.
  destruct (insert_download token filename (current w)) as [s'|].
  - destruct Hm as (-> & Hd & Hc). destruct Hins as (Hfresh & ->).
    split; [|split; congruence].
    intros r Hin Htok.
    assert (existsb (fun r => holds (sql_eq (Download.token r) (Some token)))
                    (download (current w)) = true); [|congruence].
    apply existsb_exists. exists r. split; [done|]. by apply holds_sql_eq.
  - destruct Hm as (-> & Hd & Hc). split; [done|]. split; [|done].
    apply existsb_exists in Hins as (r & Hin & Hm). exists r.
    split; [done|]. by apply holds_sql_eq in Hm.
Qed.

(** X5. A new download record does not disturb the others:
    whether [create_download_record] returns or raises, a lookup of any
    other token gives afterwards what it gave before. *)
Theorem create_download_record_other_tokens (w w1 : world)
    (token filename token' : string) (out : outcome unit) :
  wf_world w ->
  token' <> token ->
  create_download_record token filename w = (out, w1) ->
  fst (get_download_record token' w1) = fst (get_download_record token' w).
Proof.
  intros Hwf Hne Hrun.
  destruct (create_download_record_run w token filename Hwf) as (w' & Hwf' & Hm).
  destruct (get_download_record_run w token' Hwf) as (wa & -> & _).
  pose proof (insert_download_cases token filename (current w)) as Hins.
  destruct (insert_download token filename (current w)) as [s'|];
    destruct Hm as (E & Hd & Hc); rewrite E in Hrun; injection Hrun as _ <-;
    destruct (get_download_record_run w' token' Hwf') as (wb & -> & _);
    simpl; rewrite Hc; [|done].
  destruct Hins as (_ & ->). simpl. rewrite List.filter_app. simpl.
  destruct (String.eqb_spec token token') as [->|_]; [done|].
  simpl. by rewrite app_nil_r.
Qed.

(** ** Generation tasks *)

(** A property of the rows read that each INSERT of the scope loop keeps is
    kept by the loop, however it ends. *)
Lemma insert_scope_rows_view (I : store -> Prop) task paths :
  (forall f s s', I s -> insert_generate_scope task f s = Some s' -> I s') ->
  forall w h s out w',
    ready w h s -> I s ->
    insert_scope_rows h task paths w = (out, w') ->
    exists s', ready w' h s' /\ I s' /\ disk w' = disk w.
Proof.
  intros Hstep. induction paths as [|f rest IH]; intros w h s out w' Hr Hi; simpl.
  - intros [= _ <-]. eauto.
  - unfold bind.
    destruct (execute_ready w h s (fun _ => insert_generate_scope task f) Hr)
      as (w1 & Hd1 & _ & Hm).
    destruct (insert_generate_scope task f s) as [s1|] eqn:Hins.
    + destruct Hm as (-> & Hr1). intros Hrun.
      destruct (IH w1 h s1 out w' Hr1 (Hstep f s s1 Hi Hins) Hrun)
        as (s' & Hr' & Hi' & Hd').
      exists s'. split; [done|]. split; [done|]. congruence.
    + destruct Hm as (-> & Hr1). intros [= _ <-]. eauto.
Qed.

(** The same for [create_task_rows] as a whole. *)
Lemma create_task_rows_view (I : store -> Prop) d t p S w out w' :
  (forall clock s s',
     I s -> insert_generate_task clock d t "PENDING" p s = Some s' -> I s') ->
  (forall f s s', I s -> insert_generate_scope t f s = Some s' -> I s') ->
  wf_world w -> I (current w) ->
  create_task_rows d t p S w = (out, w') ->
  wf_world w' /\ I (current w').
Proof.
  intros Htask Hscope Hwf Hi.
  destruct (get_db_ready w Hwf) as (h & w1 & E & _ & _ & Hr).
  unfold create_task_rows, bind. rewrite E.
  destruct (execute_ready w1 h _
              (fun clock => insert_generate_task clock d t "PENDING" p) Hr)
    as (w2 & _ & _ & Hm).
  destruct (insert_generate_task (now w1) d t "PENDING" p (current w)) as [s1|] eqn:Hins.
  - destruct Hm as (-> & Hr2).
    destruct (insert_scope_rows h t S w2) as [[[]|e] w3] eqn:Hloop;
      destruct (insert_scope_rows_view I t S Hscope w2 h s1 _ w3 Hr2
                  (Htask _ _ _ Hi Hins) Hloop) as (s' & Hr3 & Hi3 & _).
    + destruct (commit_ready w3 h s' Hr3) as (w4 & -> & Hr4 & _).
      rewrite (query_ready _ _ _ _ Hr4). intros [= _ <-].
      destruct (ready_wf _ _ _ Hr4) as (? & ->). done.
    + intros [= _ <-]. destruct (ready_wf _ _ _ Hr3) as (? & ->). done.
  - destruct Hm as (-> & Hr2). intros [= _ <-].
    destruct (ready_wf _ _ _ Hr2) as (? & ->). done.
Qed.

Lemma scope_has_app task path rows rows' :
  scope_has task path (rows ++ rows') =
  scope_has task path rows || scope_has task path rows'.
Proof. unfold scope_has. apply existsb_app. Qed.

(** When the scope loop goes through, the filepaths were pairwise distinct
    and none was in the table for the task. *)
Lemma insert_all_scope_some_nodup task paths : forall s s',
  insert_all_scope task paths s = Some s' ->
  NoDup paths /\
  forall f, In f paths -> scope_has task f (generate_scope s) = false.
Proof.
  induction paths as [|f rest IH]; intros s s'; simpl.
  - intros _. split; [constructor|]. intros f [].
  - destruct (insert_generate_scope task f s) as [s1|] eqn:Hins; [|done].
    intros Hrest. destruct (IH s1 s' Hrest) as (Hnd & Hfree).
    pose proof (insert_generate_scope_some _ _ _ _ Hins) as ->.
    simpl in Hfree.
    assert (Hf : scope_has task f (generate_scope s) = false).
    { unfold insert_generate_scope in Hins. unfold scope_has.
      destruct (existsb _ (generate_scope s)); done. }
    split.
    + apply NoDup_cons. split; [|done].
      rewrite list_elem_of_In. intros Hin. specialize (Hfree f Hin).
      rewrite scope_has_app in Hfree. apply orb_false_iff in Hfree as (_ & Hlast).
      unfold scope_has in Hlast. simpl in Hlast. by rewrite !String.eqb_refl in Hlast.
    + intros f' [<-|Hin]; [done|]. specialize (Hfree f' Hin).
      rewrite scope_has_app in Hfree. by apply orb_false_iff in Hfree as (? & _).
Qed.

(** X6. On a store that respects the foreign key, [create_task_rows]
    returns exactly when the task id is not yet in use and the scope list
    names no filepath twice; in every other case it raises
    [ConstraintViolation]. *)
Theorem create_task_rows_returns_iff (w : world) (dataset_id task_id : string)
    (is_partial : bool) (scope : list string) :
  wf_world w ->
  ref_integrity (current w) = true ->
  match create_task_rows dataset_id task_id is_partial scope w with
  | (Return _, _) => task_fresh task_id (current w) = true /\ NoDup scope
  | (Raise e, _) =>
      e = ConstraintViolation /\
      ~ (task_fresh task_id (current w) = true /\ NoDup scope)
  end.
Proof.
  intros Hwf Hri.
  destruct (get_db_ready w Hwf) as (h & w1 & E & _ & _ & Hr).
  destruct (create_task_rows_ready w w1 h _ dataset_id task_id is_partial scope E Hr)
    as (w' & _ & Hm).
  destruct (create_task_rows_store (now w1) dataset_id task_id is_partial scope
              (current w)) as [s'|] eqn:Hs.
  - destruct Hm as (-> & _). split.
    + by apply create_task_rows_store_some in Hs as (? & _).
    + unfold create_task_rows_store in Hs.
      destruct (insert_generate_task _ _ _ _ _ _) as [s1|]; [|done].
      by apply insert_all_scope_some_nodup in Hs as (? & _).
  - destruct Hm as (-> & _). split; [done|]. intros (Hfresh & Hnd).
    rewrite (create_task_rows_store_succeeds (now w1) dataset_id task_id is_partial
               scope (current w) Hfresh (ref_integrity_scope_free _ _ Hri Hfresh) Hnd)
      in Hs.
    done.
Qed.

Lemma others_insert_generate_task s0 clock d t st p s s' :
  others_as_in t s0 s -> insert_generate_task clock d t st p s = Some s' ->
  others_as_in t s0 s'.
Proof.
  unfold insert_generate_task. destruct (existsb _ _); [done|].
  intros H [= <-]. done.
Qed.

Lemma others_insert_generate_scope s0 t f s s' :
  others_as_in t s0 s -> insert_generate_scope t f s = Some s' ->
  others_as_in t s0 s'.
Proof.
  intros (Hd & Hp & Hs) Hins. apply insert_generate_scope_some in Hins as ->.
  split; [done|]. split; [done|]. simpl. intros t' Hne.
  rewrite List.filter_app, (Hs t' Hne). simpl.
  destruct (String.eqb_spec t t') as [->|_]; [done|]. simpl. by rewrite app_nil_r.
Qed.

(** X7. [create_task_rows] leaves the rest alone: whether it returns or
    raises, the scope of every other task id, every download record and
    every package row are afterwards, for the unit of work, what they were
    before. *)
Theorem create_task_rows_frame (w w1 : world) (dataset_id task_id : string)
    (is_partial : bool) (scope : list string) (out : outcome (option task_created)) :
  wf_world w ->
  create_task_rows dataset_id task_id is_partial scope w = (out, w1) ->
  (forall t', t' <> task_id ->
     fst (get_generate_scope_filepaths t' w1) = fst (get_generate_scope_filepaths t' w)) /\
  (forall token, fst (get_download_record token w1) = fst (get_download_record token w)) /\
  (forall gb, fst (get_package_row gb w1) = fst (get_package_row gb w)).
Proof.
  intros Hwf Hrun.
  destruct (create_task_rows_view (others_as_in task_id (current w))
              dataset_id task_id is_partial scope w out w1) as (Hwf1 & Hd & Hp & Hs);
    try done.
  - intros clock s s'. apply others_insert_generate_task.
  - intros f s s'. apply others_insert_generate_scope.
  - split; [|split].
    + intros t' Hne.
      destruct (get_generate_scope_filepaths_run w t' Hwf) as (wa & -> & _).
      destruct (get_generate_scope_filepaths_run w1 t' Hwf1) as (wb & -> & _).
      simpl. by rewrite (Hs t' Hne).
    + intros token.
      destruct (get_download_record_run w token Hwf) as (wa & -> & _).
      destruct (get_download_record_run w1 token Hwf1) as (wb & -> & _).
      simpl. by rewrite Hd.
    + intros gb.
      destruct (get_package_row_run w gb Hwf) as (wa & -> & _).
      destruct (get_package_row_run w1 gb Hwf1) as (wb & -> & _).
      simpl. by rewrite Hp.
Qed.

Lemma create_task_rows_returned w w1 d t p S r :
  wf_world w ->
  create_task_rows d t p S w = (Return r, w1) ->
  wf_world w1 /\ current w1 = with_task (now w) d t p S (current w) /\
  task_fresh t (current w) = true.
Proof.
  intros Hwf Hrun.
  destruct (get_db_ready w Hwf) as (h & w0 & E & _ & Hn & Hr).
  destruct (create_task_rows_ready w w0 h _ d t p S E Hr) as (w' & _ & Hm).
  destruct (create_task_rows_store (now w0) d t p S (current w)) as [s'|] eqn:Hs;
    destruct Hm as (E' & _ & Hr'); rewrite E' in Hrun; [|done].
  injection Hrun as _ <-.
  apply create_task_rows_store_some in Hs as (Hfresh & ->).
  destruct (ready_wf _ _ _ Hr') as (Hwf' & Hc). rewrite Hn in Hc. done.
Qed.

(** X8. Once [create_task_rows] has returned, what [get_task_rows] returns
    is what it returned before, followed by the new task, PENDING and not
    done, when the dataset is the task's and the bound lets the clock
    through (it reads as a number, or it is before the clock in text
    order); for another dataset or another bound it is what it was
    before. *)
Theorem create_task_rows_then_list (w w1 w2 w3 : world) (dataset_id task_id : string)
    (is_partial : bool) (scope : list string) (r : option task_created)
    (dataset_id' initiated_after : string) (rows rows1 : list task_listing) :
  wf_world w ->
  create_task_rows dataset_id task_id is_partial scope w = (Return r, w1) ->
  get_task_rows dataset_id' initiated_after w = (Return rows, w2) ->
  get_task_rows dataset_id' initiated_after w1 = (Return rows1, w3) ->
  rows1 =
    (rows ++
       (if String.eqb dataset_id dataset_id' &&
           (numeric_literal initiated_after || String.ltb initiated_after (now w))
        then [TaskListing (Some (now w)) None (Some task_id)
                          (Some "PENDING") is_partial]
        else []))%list.
Proof.
  intros Hwf Hrun Hbefore Hafter.
  destruct (create_task_rows_returned _ _ _ _ _ _ _ Hwf Hrun) as (Hwf1 & Hc & _).
  destruct (get_task_rows_run w dataset_id' initiated_after Hwf) as (wa & E2 & _).
  destruct (get_task_rows_run w1 dataset_id' initiated_after Hwf1) as (wb & E3 & _).
  rewrite E2 in Hbefore. injection Hbefore as <- _.
  rewrite E3 in Hafter. injection Hafter as <- _.
  rewrite Hc. simpl. rewrite List.filter_app, map_app. f_equal.
  unfold get_task_rows_where. simpl.
  destruct (String.eqb dataset_id dataset_id'),
           (numeric_literal initiated_after),
           (String.ltb initiated_after (now w)); done.
Qed.

Lemma task_fresh_insert_generate_scope t f s s' :
  task_fresh t s = false -> insert_generate_scope t f s = Some s' ->
  task_fresh t s' = false.
Proof. intros H Hins. by apply insert_generate_scope_some in Hins as ->. Qed.

(** After a failed [create_task_rows] the unit of work reads a task row
    with the task id: the one that was there, or the one the call put in
    before it failed. *)
Lemma create_task_rows_failed_taken w w1 d t p sc e :
  wf_world w ->
  create_task_rows d t p sc w = (Raise e, w1) ->
  wf_world w1 /\ task_fresh t (current w1) = false.
Proof.
  intros Hwf Hrun.
  destruct (get_db_ready w Hwf) as (h & w0 & E & _ & _ & Hr).
  unfold create_task_rows, bind in Hrun. rewrite E in Hrun.
  destruct (execute_ready w0 h _
              (fun clock => insert_generate_task clock d t "PENDING" p) Hr)
    as (w2 & _ & _ & Hm).
  destruct (insert_generate_task (now w0) d t "PENDING" p (current w))
    as [s1|] eqn:Hins.
  - destruct Hm as (E2 & Hr2). rewrite E2 in Hrun.
    assert (Hs1 : task_fresh t s1 = false).
    { unfold insert_generate_task in Hins.
      destruct (existsb _ (generate_task (current w))); [done|].
      injection Hins as <-. unfold task_fresh. simpl.
      rewrite existsb_app. simpl. rewrite String.eqb_refl.
      by rewrite orb_true_r. }
    destruct (insert_scope_rows h t sc w2) as [[[]|e'] w3] eqn:Hloop;
      destruct (insert_scope_rows_view (fun s => task_fresh t s = false)
                  t sc (task_fresh_insert_generate_scope t)
                  w2 h s1 _ w3 Hr2 Hs1 Hloop) as (s' & Hr3 & Hi3 & _).
    + destruct (commit_ready w3 h s' Hr3) as (w4 & E4 & Hr4 & _).
      rewrite E4, (query_ready _ _ _ _ Hr4) in Hrun. done.
    + injection Hrun as _ <-. destruct (ready_wf _ _ _ Hr3) as (? & ->). done.
  - destruct Hm as (E2 & Hr2). rewrite E2 in Hrun. injection Hrun as _ <-.
    destruct (ready_wf _ _ _ Hr2) as (? & ->). split; [done|].
    unfold insert_generate_task in Hins. unfold task_fresh.
    destruct (existsb _ (generate_task (current w))); done.
Qed.

(** X9. A failed [create_task_rows] keeps its task id taken for the rest
    of the unit of work: the call does not roll back, so a second call
    with the same task id on the same connection raises
    [ConstraintViolation], whatever its dataset and scope. *)
Theorem create_task_rows_failed_then_again (w w1 : world) (dataset_id task_id : string)
    (is_partial : bool) (scope : list string) (e : error)
    (dataset_id' : string) (is_partial' : bool) (scope' : list string) :
  wf_world w ->
  create_task_rows dataset_id task_id is_partial scope w = (Raise e, w1) ->
  exists w2,
    create_task_rows dataset_id' task_id is_partial' scope' w1 =
      (Raise ConstraintViolation, w2).
Proof.
  intros Hwf Hrun.
  destruct (create_task_rows_failed_taken _ _ _ _ _ _ _ Hwf Hrun) as (Hwf1 & Htaken).
  destruct (get_db_ready w1 Hwf1) as (h & w0 & E & _ & _ & Hr).
  destruct (create_task_rows_ready w1 w0 h _ dataset_id' task_id is_partial' scope' E Hr)
    as (w2 & _ & Hm).
  unfold create_task_rows_store, insert_generate_task in Hm.
  unfold task_fresh in Htaken. apply negb_false_iff in Htaken. rewrite Htaken in Hm.
  exists w2. tauto.
Qed.

(** X16. What a failed [create_task_rows] left pending is written by the
    next commit of the unit of work: when [create_download_record]
    returns after the failure, the file holds a task row with the task id
    of the failed call. *)
Theorem create_task_rows_failed_then_commit (w w1 w2 : world)
    (dataset_id task_id : string) (is_partial : bool) (scope : list string)
    (e : error) (token filename : string) :
  wf_world w ->
  create_task_rows dataset_id task_id is_partial scope w = (Raise e, w1) ->
  create_download_record token filename w1 = (Return tt, w2) ->
  task_fresh task_id (disk w2) = false /\
  generate_task (disk w2) = generate_task (current w1) /\
  generate_scope (disk w2) = generate_scope (current w1).
Proof.
  intros Hwf Hfail Hcommit.
  destruct (create_task_rows_failed_taken _ _ _ _ _ _ _ Hwf Hfail) as (Hwf1 & Htaken).
  destruct (create_download_record_run w1 token filename Hwf1) as (w' & _ & Hm).
  pose proof (insert_download_cases token filename (current w1)) as Hins.
  destruct (insert_download token filename (current w1)) as [s'|];
    destruct Hm as (E & Hd & _); rewrite E in Hcommit; [|done].
  injection Hcommit as <-. destruct Hins as (_ & ->). rewrite Hd.
  unfold task_fresh in *. done.
Qed.

(** X17. [get_generate_scope_filepaths] returns the set of the filepaths of
    the scope rows of the task: a value is in the set exactly when a scope
    row of the task holds it. *)
Theorem get_generate_scope_filepaths_members (w : world) (task_id : string) :
  wf_world w ->
  exists fs w',
    get_generate_scope_filepaths task_id w = (Return fs, w') /\
    forall f : text,
      f ∈ fs <->
      exists r, In r (generate_scope (current w)) /\
                Scope.task_id r = Some task_id /\ Scope.filepath r = f.
Proof.
  intros Hwf.
  destruct (get_generate_scope_filepaths_run w task_id Hwf) as (w' & E & _).
  eexists _, w'. split; [exact E|]. intros f.
  rewrite elem_of_list_to_set, list_elem_of_In, in_map_iff.
  split.
  - intros (r & <- & Hr). apply filter_In in Hr as (Hin & Hm).
    apply holds_sql_eq in Hm. eauto.
  - intros (r & Hin & Ht & <-). exists r. split; [done|].
    apply filter_In. split; [done|]. by apply holds_sql_eq.
Qed.

(** ** The connection *)

(** X10. [close_db] drops what the connection had pending: afterwards the
    unit of work reads the file, which is untouched; the next [get_db]
    opens another connection, the closed one stays closed, and the new one
    reads the file too. *)
Theorem close_db_rolls_back (w : world) (h : nat) :
  g_db w = Some h ->
  live w h = true ->
  exists w1,
    close_db w = (Return tt, w1) /\ disk w1 = disk w /\ current w1 = disk w /\
    exists h' w2,
      get_db w1 = (Return h', w2) /\ h' <> h /\
      live w2 h' = true /\ live w2 h = false /\ current w2 = disk w.
Proof.
  intros Hg Hl. pose proof (live_lt _ _ Hl) as Hlt.
  set (cs := <[h := Connection false None]> (conns w)).
  assert (Hlen : length cs = length (conns w)) by apply length_insert.
  exists (World (disk w) cs None (now w)).
  split; [by apply close_db_closes|]. split; [done|]. split; [done|].
  exists (length cs),
         (World (disk w) (cs ++ [Connection true None]) (Some (length cs)) (now w)).
  split; [done|]. split; [lia|].
  unfold live, current, view; cbn [conns g_db disk].
  rewrite lookup_app_r, Nat.sub_diag by done.
  rewrite lookup_app_l by lia.
  unfold cs. rewrite list_lookup_insert_eq by done. done.
Qed.

(** ** Listing tasks with the default bound *)

(** X11. A task whose [initiated] is NULL is never among the rows that
    [get_task_rows] returns, whatever the bound; with the default bound,
    the empty string, neither is a task whose [initiated] is the empty
    text. *)
Theorem get_task_rows_null_initiated (w w' : world) (dataset_id initiated_after : string)
    (rows : list task_listing) (r : Task.row) :
  wf_world w ->
  get_task_rows dataset_id initiated_after w = (Return rows, w') ->
  (Task.initiated r = None -> ~ In (task_listing_of r) rows) /\
  (initiated_after = "" -> Task.initiated r = Some "" ->
   ~ In (task_listing_of r) rows).
Proof.
  intros Hwf Hrun.
  destruct (get_task_rows_run w dataset_id initiated_after Hwf) as (w1 & E & _).
  rewrite E in Hrun. injection Hrun as <- _.
  assert (Hlisted : In (task_listing_of r)
                      (map task_listing_of
                         (List.filter (get_task_rows_where dataset_id initiated_after)
                                      (generate_task (current w)))) ->
            exists i, Task.initiated r = Some i /\
                      (numeric_literal initiated_after = true \/
                       String.ltb initiated_after i = true)).
  { intros Hl. apply in_map_iff in Hl as (r' & Heq & Hr').
    apply filter_In in Hr' as (_ & Hw).
    apply get_task_rows_where_iff in Hw as (_ & _ & i & Hi & Hlt).
    exists i. split; [|done].
    change (tl_initiated (task_listing_of r) = Some i). by rewrite <- Heq. }
  split.
  - intros Hnull Hl. destruct (Hlisted Hl) as (i & Hi & _). congruence.
  - intros -> Hempty Hl. destruct (Hlisted Hl) as (i & Hi & [Hnum|Hlt]).
    + done.
    + rewrite Hempty in Hi. injection Hi as <-. done.
Qed.

(** ** Connections over a whole application context *)

Lemma keeps_bind (Q : world -> Prop) {A B} (m : M A) (k : A -> M B) :
  keeps Q m -> (forall a, keeps Q (k a)) -> keeps Q (bind m k).
Proof.
  intros Hm Hk w out w' Hq. unfold bind.
  destruct (m w) as [[a|e] w1] eqn:E.
  - apply (Hk a w1). by apply (Hm w (Return a) w1).
  - intros [= _ <-]. by apply (Hm w (Raise e) w1).
Qed.

Lemma keeps_ret (Q : world -> Prop) {A} (a : A) : keeps Q (ret a).
Proof. intros w out w' Hq [= _ <-]. done. Qed.

Lemma tracked_start w :
  g_db w = None -> all_closed w = true -> tracked (S (length (conns w))) w.
Proof.
  intros Hg Hclosed. unfold tracked, wf_world. rewrite Hg.
  split; [done|]. split; [|lia].
  intros h c Hl Hopen. unfold all_closed in Hclosed.
  rewrite forallb_forall in Hclosed.
  assert (In c (conns w)) as Hin.
  { apply list_elem_of_In, list_elem_of_lookup. eauto. }
  specialize (Hclosed c Hin). rewrite Hopen in Hclosed. done.
Qed.

Lemma tracked_get_db n : keeps (tracked n) get_db.
Proof.
  intros w out w' (Hwf & Honly & Hlen). unfold get_db.
  destruct (g_db w) as [h|] eqn:Hg.
  - intros [= _ <-]. unfold tracked. rewrite Hg. done.
  - unfold bind, sqlite3_connect. simpl. intros [= _ <-].
    unfold tracked, wf_world, live; simpl.
    rewrite lookup_app_r, Nat.sub_diag by done. simpl.
    split; [done|]. split.
    + intros h c Hl Hopen.
      destruct (decide (h < length (conns w))) as [Hlt|Hge].
      * rewrite lookup_app_l in Hl by done. by specialize (Honly h c Hl Hopen).
      * f_equal. apply lookup_lt_Some in Hl. rewrite length_app in Hl.
        simpl in Hl. lia.
    + rewrite length_app. simpl. lia.
Qed.

(** Replacing the connection at an open handle by an open connection. *)
Lemma tracked_replace n w h c d :
  tracked n w -> live w h = true -> is_open c = true ->
  tracked n (World d (<[h := c]> (conns w)) (g_db w) (now w)).
Proof.
  intros (Hwf & Honly & Hlen) Hl Hopen.
  pose proof (live_lt _ _ Hl) as Hlt.
  assert (Hg : g_db w = Some h).
  { unfold live in Hl. destruct (conns w !! h) as [c0|] eqn:E; [|done]. eauto. }
  unfold tracked, wf_world, live; simpl. rewrite Hg, length_insert.
  rewrite list_lookup_insert_eq by done.
  split; [done|]. split.
  - intros j c' Hj Hopen'. destruct (decide (j = h)) as [->|Hne]; [done|].
    rewrite list_lookup_insert_ne in Hj by done. rewrite <- Hg. eauto.
  - by rewrite Hg in Hlen.
Qed.

Lemma tracked_query n {A} h (q : store -> A) : keeps (tracked n) (query h q).
Proof.
  intros w out w' Ht. unfold query. destruct (live w h); by intros [= _ <-].
Qed.

Lemma tracked_execute n h stmt : keeps (tracked n) (execute h stmt).
Proof.
  intros w out w' Ht. unfold execute. destruct (live w h) eqn:Hl.
  - destruct (stmt (now w) (view w h)); intros [= _ <-];
      by apply tracked_replace.
  - by intros [= _ <-].
Qed.

Lemma tracked_commit n h : keeps (tracked n) (commit h).
Proof.
  intros w out w' Ht. unfold commit. destruct (live w h) eqn:Hl.
  - intros [= _ <-]. by apply tracked_replace.
  - by intros [= _ <-].
Qed.

Lemma tracked_executescript n h script : keeps (tracked n) (executescript h script).
Proof.
  intros w out w' Ht. unfold executescript. destruct (live w h) eqn:Hl.
  - intros [= _ <-]. by apply tracked_replace.
  - by intros [= _ <-].
Qed.

Lemma tracked_insert_scope_rows n h t paths :
  keeps (tracked n) (insert_scope_rows h t paths).
Proof.
  induction paths as [|f rest IH]; simpl.
  - apply keeps_ret.
  - apply keeps_bind; [apply tracked_execute|]. intros _. apply IH.
Qed.

Lemma tracked_init_db n script : keeps (tracked n) (init_db script).
Proof.
  apply keeps_bind; [apply tracked_get_db|]. intros h. apply tracked_executescript.
Qed.

Lemma tracked_weaken n m w : n <= m -> tracked n w -> tracked m w.
Proof. intros Hle (Hwf & Honly & Hlen). unfold tracked. split; [done|]. split; [done|lia]. Qed.

(** [close_db] leaves every connection closed and [g] empty; the next
    [get_db] will open one more connection. *)
Lemma tracked_close_db n w :
  tracked n w ->
  g_db (snd (close_db w)) = None /\ all_closed (snd (close_db w)) = true /\
  length (conns (snd (close_db w))) = length (conns w) /\
  tracked (S n) (snd (close_db w)).
Proof.
  intros (Hwf & Honly & Hlen).
  assert (Hclosed : g_db (snd (close_db w)) = None /\
                    all_closed (snd (close_db w)) = true /\
                    length (conns (snd (close_db w))) = length (conns w)).
  { unfold close_db, conn_close, all_closed.
    destruct (g_db w) as [h|] eqn:Hg; simpl.
    - rewrite length_insert. split; [done|]. split; [|done].
      apply forallb_forall. intros c Hin.
      apply list_elem_of_In, list_elem_of_lookup in Hin as (j & Hj).
      destruct (decide (j = h)) as [->|Hne].
      + pose proof (lookup_lt_Some _ _ _ Hj) as Hlt. rewrite length_insert in Hlt.
        rewrite list_lookup_insert_eq in Hj by done. by injection Hj as <-.
      + rewrite list_lookup_insert_ne in Hj by done.
        destruct (is_open c) eqn:Hopen; [|done].
        specialize (Honly j c Hj Hopen). congruence.
    - split; [done|]. split; [|done].
      apply forallb_forall. intros c Hin.
      apply list_elem_of_In, list_elem_of_lookup in Hin as (j & Hj).
      destruct (is_open c) eqn:Hopen; [|done].
      specialize (Honly j c Hj Hopen). done. }
  destruct Hclosed as (Hg' & Hall & Hlen').
  split; [done|]. split; [done|]. split; [done|].
  unfold tracked, wf_world. rewrite Hg', Hlen'.
  split; [done|]. split.
  - intros h c Hl Hopen. unfold all_closed in Hall. rewrite forallb_forall in Hall.
    assert (In c (conns (snd (close_db w)))) as Hin.
    { apply list_elem_of_In, list_elem_of_lookup. eauto. }
    specialize (Hall c Hin). rewrite Hopen in Hall. done.
  - destruct (g_db w); lia.
Qed.

Lemma tracked_after_call n c w :
  tracked n w -> tracked (n + close_calls [c]) (after_call c w).
Proof.
  intros Ht.
  assert (Hsnd : forall A (m : M A), keeps (tracked n) m ->
                   tracked (n + 0) (snd (m w))).
  { intros A m Hm. rewrite Nat.add_0_r.
    destruct (m w) as [out w'] eqn:E. by apply (Hm w out w'). }
  destruct c; simpl; try apply Hsnd.
  - apply tracked_get_db.
  - rewrite Nat.add_1_r. by apply tracked_close_db.
  - apply tracked_init_db.
  - unfold init_db_command. destruct confirm; [|apply keeps_ret].
    apply keeps_bind; [apply tracked_init_db|]. intros _. apply keeps_ret.
  - apply keeps_bind; [apply tracked_get_db|]. intros h. apply tracked_query.
  - apply keeps_bind; [apply tracked_get_db|]. intros h. apply tracked_query.
  - apply keeps_bind; [apply tracked_get_db|]. intros h.
    apply keeps_bind; [apply tracked_execute|]. intros _. apply tracked_commit.
  - apply keeps_bind; [apply tracked_get_db|]. intros h.
    apply keeps_bind; [apply tracked_execute|]. intros _.
    apply keeps_bind; [apply tracked_insert_scope_rows|]. intros _.
    apply keeps_bind; [apply tracked_commit|]. intros _. apply tracked_query.
  - apply keeps_bind; [apply tracked_get_db|]. intros h. apply tracked_query.
  - apply keeps_bind; [apply tracked_get_db|]. intros h.
    apply keeps_bind; [apply tracked_query|]. intros rows. apply keeps_ret.
  - apply keeps_bind; [apply tracked_get_db|]. intros h. apply tracked_query.
Qed.

Lemma close_calls_cons c cs : close_calls (c :: cs) = close_calls [c] + close_calls cs.
Proof. unfold close_calls. simpl. destruct c; simpl; done. Qed.

Lemma tracked_after_calls cs : forall n w,
  tracked n w -> tracked (n + close_calls cs) (after_calls cs w).
Proof.
  induction cs as [|c rest IH]; intros n w Ht; simpl.
  - unfold close_calls. simpl. by rewrite Nat.add_0_r.
  - rewrite close_calls_cons, Nat.add_assoc. apply IH. by apply tracked_after_call.
Qed.

(** X14. With [close_db] registered by [init_app], an application
    context that starts with no connection leaves none open, whatever
    functions of the module it calls, [close_db] included, and whichever
    of them raise.  At every point the only connection that can be open
    is the one that [g] holds; at the end of the context every connection
    is closed and [g] holds none; and the context has opened at most one
    connection, plus one for each [close_db] that it called itself. *)
Theorem app_context_closes (w : world) (cs : list call) :
  g_db w = None ->
  all_closed w = true ->
  (forall h c, conns (after_calls cs w) !! h = Some c -> is_open c = true ->
               g_db (after_calls cs w) = Some h) /\
  let w' := app_context (init_app (App [] [])) cs w in
  g_db w' = None /\ all_closed w' = true /\
  length (conns w') <= S (length (conns w)) + close_calls cs.
Proof.
  intros Hg Hclosed.
  pose proof (tracked_after_calls cs _ w (tracked_start w Hg Hclosed)) as Ht.
  split; [apply Ht|].
  destruct Ht as (Hwf & Honly & Hlen).
  destruct (tracked_close_db _ _ (conj Hwf (conj Honly Hlen)))
    as (Hg' & Hall & Hlen' & _).
  unfold app_context, do_teardown_appcontext. simpl. unfold bind.
  destruct (close_db (after_calls cs w)) as [[[]|e] w1]; simpl in *;
    (split; [done|]); (split; [done|]); rewrite Hlen';
    destruct (g_db (after_calls cs w)); lia.
Qed.

(** ** The further properties at concrete worlds *)

Lemma get_download_record_found_witness :
  exists res w',
    get_download_record "tok" w_sample = (Return res, w') /\
    match res with
    | Some r => In r (download (current w_sample)) /\ Download.token r = Some "tok"
    | None => forall r, In r (download (current w_sample)) ->
                        Download.token r <> Some "tok"
    end.
Proof. apply (get_download_record_found w_sample "tok" I). Defined.

Lemma get_package_row_found_witness :
  exists res w',
    get_package_row "T1" w_sample = (Return res, w') /\
    match res with
    | Some info =>
        exists p, In p (package (current w_sample)) /\
                  Package.generated_by p = Some "T1" /\
                  info = package_info_of p
    | None =>
        forall p, In p (package (current w_sample)) ->
                  Package.generated_by p <> Some "T1"
    end /\
    forall p,
      In p (package (current w_sample)) -> Package.generated_by p = Some "T1" ->
      (forall p', In p' (package (current w_sample)) ->
                  Package.generated_by p' = Some "T1" -> p' = p) ->
      res = Some (package_info_of p).
Proof. apply (get_package_row_found w_sample "T1" I). Defined.

Lemma create_download_record_effect_witness :
  match create_download_record "tok" "T1.zip" w_sample with
  | (Return _, w') =>
      (forall r, In r (download (current w_sample)) -> Download.token r <> Some "tok") /\
      disk w' = Store (download (current w_sample) ++
                         [Download.Row (Some "tok") (Some "T1.zip")])
                      (generate_task (current w_sample))
                      (generate_scope (current w_sample))
                      (package (current w_sample)) /\
      current w' = disk w'
  | (Raise e, w') =>
      e = ConstraintViolation /\
      (exists r, In r (download (current w_sample)) /\ Download.token r = Some "tok") /\
      disk w' = disk w_sample /\ current w' = current w_sample
  end.
Proof. apply (create_download_record_effect w_sample "tok" "T1.zip" I). Defined.

Lemma create_download_record_other_tokens_witness :
  fst (get_download_record "tok1"
         (snd (create_download_record "tok2" "T1.zip"
                 (snd (create_download_record "tok1" "T1.zip" w_empty))))) =
  fst (get_download_record "tok1"
         (snd (create_download_record "tok1" "T1.zip" w_empty))).
Proof.
  apply (create_download_record_other_tokens
           (snd (create_download_record "tok1" "T1.zip" w_empty)) _
           "tok2" "T1.zip" "tok1" (Return tt)).
  - reflexivity.
  - discriminate.
  - reflexivity.
Defined.

Lemma create_task_rows_returns_iff_witness :
  match create_task_rows "D1" "T1" false ["a.txt"; "a.txt"] w_sample with
  | (Return _, _) =>
      task_fresh "T1" (current w_sample) = true /\ NoDup ["a.txt"; "a.txt"]
  | (Raise e, _) =>
      e = ConstraintViolation /\
      ~ (task_fresh "T1" (current w_sample) = true /\ NoDup ["a.txt"; "a.txt"])
  end.
Proof.
  apply (create_task_rows_returns_iff w_sample "D1" "T1" false ["a.txt"; "a.txt"]).
  - exact I.
  - reflexivity.
Defined.

Lemma create_task_rows_frame_witness :
  (forall t', t' <> "T9" ->
     fst (get_generate_scope_filepaths t'
            (snd (create_task_rows "D1" "T9" false ["b.txt"] w_sample))) =
     fst (get_generate_scope_filepaths t' w_sample)) /\
  (forall token,
     fst (get_download_record token
            (snd (create_task_rows "D1" "T9" false ["b.txt"] w_sample))) =
     fst (get_download_record token w_sample)) /\
  (forall gb,
     fst (get_package_row gb
            (snd (create_task_rows "D1" "T9" false ["b.txt"] w_sample))) =
     fst (get_package_row gb w_sample)).
Proof.
  apply (create_task_rows_frame w_sample _ "D1" "T9" false ["b.txt"]
           (fst (create_task_rows "D1" "T9" false ["b.txt"] w_sample))).
  - exact I.
  - reflexivity.
Defined.

Lemma create_task_rows_then_list_witness :
  fst (get_task_rows "D1" ""
         (snd (create_task_rows "D1" "T9" false ["b.txt"] w_sample))) =
    Return [TaskListing (Some "2020-05-04 10:00:00") (Some "2020-05-04 10:05:00")
                        (Some "T1") (Some "SUCCESS") false;
            TaskListing (Some "2020-05-05 08:00:00") None (Some "T2") None true;
            TaskListing (Some "2020-05-07 12:00:00") None (Some "T9")
                        (Some "PENDING") false] /\
  [TaskListing (Some "2020-05-04 10:00:00") (Some "2020-05-04 10:05:00")
               (Some "T1") (Some "SUCCESS") false;
   TaskListing (Some "2020-05-05 08:00:00") None (Some "T2") None true;
   TaskListing (Some "2020-05-07 12:00:00") None (Some "T9") (Some "PENDING") false] =
  ([TaskListing (Some "2020-05-04 10:00:00") (Some "2020-05-04 10:05:00")
                (Some "T1") (Some "SUCCESS") false;
    TaskListing (Some "2020-05-05 08:00:00") None (Some "T2") None true] ++
   (if String.eqb "D1" "D1" && (numeric_literal "" || String.ltb "" (now w_sample))
    then [TaskListing (Some (now w_sample)) None (Some "T9") (Some "PENDING") false]
    else []))%list.
Proof.
  split; [reflexivity|].
  apply (create_task_rows_then_list w_sample
           (snd (create_task_rows "D1" "T9" false ["b.txt"] w_sample))
           (snd (get_task_rows "D1" "" w_sample))
           (snd (get_task_rows "D1" ""
                   (snd (create_task_rows "D1" "T9" false ["b.txt"] w_sample))))
           "D1" "T9" false ["b.txt"]
           (Some (TaskCreated (Some "2020-05-07 12:00:00") (Some "T9")
                              (Some "PENDING") None))
           "D1" "").
  - exact I.
  - reflexivity.
  - reflexivity.
  - reflexivity.
Defined.

Lemma create_task_rows_failed_then_again_witness :
  exists w2,
    create_task_rows "D2" "T1" true ["c.txt"]
      (snd (create_task_rows "D1" "T1" false ["a.txt"; "a.txt"] w_empty)) =
      (Raise ConstraintViolation, w2).
Proof.
  apply (create_task_rows_failed_then_again w_empty _ "D1" "T1" false
           ["a.txt"; "a.txt"] ConstraintViolation "D2" true ["c.txt"]).
  - exact I.
  - reflexivity.
Defined.

Lemma close_db_rolls_back_witness :
  exists w1,
    close_db (snd (get_db w_sample)) = (Return tt, w1) /\
    disk w1 = disk (snd (get_db w_sample)) /\
    current w1 = disk (snd (get_db w_sample)) /\
    exists h' w2,
      get_db w1 = (Return h', w2) /\ h' <> 0 /\
      live w2 h' = true /\ live w2 0 = false /\
      current w2 = disk (snd (get_db w_sample)).
Proof.
  apply (close_db_rolls_back (snd (get_db w_sample)) 0).
  - reflexivity.
  - reflexivity.
Defined.

Lemma get_task_rows_null_initiated_witness :
  fst (get_task_rows "D1" "" w_null_initiated) =
    Return [TaskListing (Some "2020-05-05 08:00:00") None (Some "T2")
                        (Some "PENDING") false] /\
  ~ In (TaskListing None None (Some "T1") (Some "PENDING") false)
       [TaskListing (Some "2020-05-05 08:00:00") None (Some "T2")
                    (Some "PENDING") false].
Proof.
  split; [reflexivity|].
  apply (proj1 (get_task_rows_null_initiated w_null_initiated
                  (snd (get_task_rows "D1" "" w_null_initiated)) "D1" ""
                  [TaskListing (Some "2020-05-05 08:00:00") None (Some "T2")
                               (Some "PENDING") false]
                  (Task.Row (Some "D1") (Some "T1") (Some "PENDING") false None None)
                  I eq_refl)).
  reflexivity.
Defined.

Lemma app_context_closes_witness :
  (forall h c,
     conns (after_calls [CallCreateTaskRows "D1" "T9" false ["a.txt"; "a.txt"];
                         CallCloseDb;
                         CallGetTaskRows "D1" "";
                         CallCreateDownloadRecord "tok" "T1.zip"] w_sample) !! h = Some c ->
     is_open c = true ->
     g_db (after_calls [CallCreateTaskRows "D1" "T9" false ["a.txt"; "a.txt"];
                        CallCloseDb;
                        CallGetTaskRows "D1" "";
                        CallCreateDownloadRecord "tok" "T1.zip"] w_sample) = Some h) /\
  let w' := app_context (init_app (App [] []))
              [CallCreateTaskRows "D1" "T9" false ["a.txt"; "a.txt"];
               CallCloseDb;
               CallGetTaskRows "D1" "";
               CallCreateDownloadRecord "tok" "T1.zip"] w_sample in
  g_db w' = None /\ all_closed w' = true /\
  length (conns w') <=
    S (length (conns w_sample)) +
    close_calls [CallCreateTaskRows "D1" "T9" false ["a.txt"; "a.txt"];
                 CallCloseDb;
                 CallGetTaskRows "D1" "";
                 CallCreateDownloadRecord "tok" "T1.zip"].
Proof.
  apply (app_context_closes w_sample).
  - reflexivity.
  - reflexivity.
Defined.

Lemma consistent_kept_witness :
  consistent (snd (create_task_rows "D1" "T9" false ["a.txt"; "a.txt"] w_sample)) /\
  consistent (snd (close_db (snd (create_download_record "tok" "T1.zip" w_sample)))).
Proof.
  split.
  - destruct (consistent_kept w_sample (conj I (conj eq_refl eq_refl)))
      as (_ & _ & _ & _ & _ & _ & _ & _ & Hcreate).
    apply (Hcreate "D1" "T9" false ["a.txt"; "a.txt"]
             (fst (create_task_rows "D1" "T9" false ["a.txt"; "a.txt"] w_sample))).
    reflexivity.
  - destruct (consistent_kept (snd (create_download_record "tok" "T1.zip" w_sample))
                (conj eq_refl (conj eq_refl eq_refl)))
      as (_ & Hclose & _).
    apply (Hclose (Return tt)). reflexivity.
Defined.

Lemma create_task_rows_failed_then_commit_witness :
  let w1 := snd (create_task_rows "D1" "T1" false ["a.txt"; "a.txt"; "c.txt"] w_empty) in
  let w2 := snd (create_download_record "tok" "T1.zip" w1) in
  task_fresh "T1" (disk w2) = false /\
  generate_task (disk w2) = generate_task (current w1) /\
  generate_scope (disk w2) = generate_scope (current w1).
Proof.
  apply (create_task_rows_failed_then_commit w_empty _ _ "D1" "T1" false
           ["a.txt"; "a.txt"; "c.txt"] ConstraintViolation "tok" "T1.zip").
  - exact I.
  - reflexivity.
  - reflexivity.
Defined.

Lemma get_generate_scope_filepaths_members_witness :
  exists fs w',
    get_generate_scope_filepaths "T2" w_sample = (Return fs, w') /\
    forall f : text,
      f ∈ fs <->
      exists r, In r (generate_scope (current w_sample)) /\
                Scope.task_id r = Some "T2" /\ Scope.filepath r = f.
Proof. apply (get_generate_scope_filepaths_members w_sample "T2" I). Defined.
